(** * asistente_virtual: the turn pipeline of [app.py]

    A shallow embedding of [app.py] (a Streamlit script that answers
    questions through a remote chat-completion endpoint and records every
    exchange in a spreadsheet) together with the properties of its
    turn-orchestration and context-assembly pipeline.

    Conventions of the embedding.
    - A Python [str] is a [string] holding its UTF-8 bytes.
    - A Python value that comes out of [json.load] / [response.json()]
      is a [json] tree; a [dict] keeps its insertion order as an
      association list.
    - Everything the script obtains from outside (files, environment,
      the widget value, the HTTP exchange, the spreadsheet service,
      clocks, uuid) is a field of [world]: one [world] per script run.
    - [st.session_state] is the [session_state] record threaded from one
      run to the next; everything the script does to the outside is
      appended to a trace of [event]s.
    - A Python exception is an [exn]; code that may raise lives in the
      monad [M], in which the effects performed before a [raise] stay. *)

From Stdlib Require Import String Ascii List ZArith Lia Bool.
From Stdlib Require Import DecimalString.
Import ListNotations.
Local Open Scope string_scope.
Local Open Scope nat_scope.

(* ================================================================== *)
(** ** Python strings *)
(* ================================================================== *)

Module PyStr.

Definition chr (n : nat) : string := String (ascii_of_nat n) EmptyString.

(** ["\n"] and the double quote. *)
Definition nl : string := chr 10.
Definition dq : string := chr 34.

(** Truth value of a [str]: [if s:] holds exactly for the non-empty ones. *)
Definition truthy (s : string) : bool :=
  match s with
  | EmptyString => false
  | String _ _ => true
  end.

(** Truth value of [os.getenv(...)]: [None] and the empty [str] are false. *)
Definition truthy_opt (o : option string) : bool :=
  match o with
  | None => false
  | Some s => truthy s
  end.

(** [str(n)] / [repr(n)] of a Python [int]. *)
Definition of_Z (z : Z) : string := NilZero.string_of_int (Z.to_int z).

Fixpoint repeat (s : string) (n : nat) : string :=
  match n with
  | O => EmptyString
  | S n' => s ++ repeat s n'
  end.

Definition rev (s : string) : string :=
  string_of_list_ascii (List.rev (list_ascii_of_string s)).

(** *** Whitespace, as [str.strip()] with no argument sees it.

    The characters for which [str.isspace] holds: U+0009..U+000D,
    U+001C..U+0020, U+0085, U+00A0, U+1680, U+2000..U+200A, U+2028,
    U+2029, U+202F, U+205F, U+3000, here through their UTF-8 bytes. *)

Definition ws1 (a : nat) : bool :=
  ((9 <=? a) && (a <=? 13)) || ((28 <=? a) && (a <=? 32)).

Definition ws2 (a b : nat) : bool :=
  (a =? 194) && ((b =? 133) || (b =? 160)).

Definition ws3 (a b c : nat) : bool :=
  ((a =? 225) && (b =? 154) && (c =? 128))
  || ((a =? 226) && (b =? 128)
      && (((128 <=? c) && (c <=? 138)) || (c =? 168) || (c =? 169) || (c =? 175)))
  || ((a =? 226) && (b =? 129) && (c =? 159))
  || ((a =? 227) && (b =? 128) && (c =? 128)).

(** Drop the leading whitespace characters.  With [back = true] the
    argument is a reversed string, whose multi-byte characters show their
    last byte first. *)
Fixpoint drop_ws (back : bool) (s : string) : string :=
  match s with
  | EmptyString => EmptyString
  | String c1 r1 =>
      let a := nat_of_ascii c1 in
      if ws1 a then drop_ws back r1
      else
        match r1 with
        | EmptyString => s
        | String c2 r2 =>
            let b := nat_of_ascii c2 in
            if (if back then ws2 b a else ws2 a b) then drop_ws back r2
            else
              match r2 with
              | EmptyString => s
              | String c3 r3 =>
                  let c := nat_of_ascii c3 in
                  if (if back then ws3 c b a else ws3 a b c)
                  then drop_ws back r3
                  else s
              end
        end
  end.

Definition lstrip (s : string) : string := drop_ws false s.
Definition rstrip (s : string) : string := rev (drop_ws true (rev s)).

(** [s.strip()] *)
Definition strip (s : string) : string := rstrip (lstrip s).

(** [sep.join(l)] *)
Fixpoint join (sep : string) (l : list string) : string :=
  match l with
  | [] => EmptyString
  | [x] => x
  | x :: l' => x ++ sep ++ join sep l'
  end.

(** The first character of a non-empty [str]: the leading byte and the
    UTF-8 continuation bytes (10xxxxxx) that follow it. *)
Fixpoint take_cont (s : string) : string :=
  match s with
  | EmptyString => EmptyString
  | String c r =>
      let a := nat_of_ascii c in
      if (128 <=? a) && (a <=? 191) then String c (take_cont r)
      else EmptyString
  end.

Definition first_char (s : string) : option string :=
  match s with
  | EmptyString => None
  | String c r => Some (String c (take_cont r))
  end.

End PyStr.

(* ================================================================== *)
(** ** JSON values and [json.dumps(_, indent=2, ensure_ascii=False)] *)
(* ================================================================== *)

(** What [json.load] builds.  A float is kept as the text that
    [json.dumps] prints for it ([float.__repr__], or [NaN], [Infinity],
    [-Infinity]); the keys of a [dict] are [str]. *)
#[local] Set Warnings "-register-all".
Inductive json : Type :=
| JNull
| JBool (b : bool)
| JInt (z : Z)
| JFloat (repr : string)
| JStr (s : string)
| JList (items : list json)
| JDict (fields : list (string * json)).

Module Json.

Definition hex_digit (n : nat) : string :=
  match n with
  | 0 => "0" | 1 => "1" | 2 => "2" | 3 => "3" | 4 => "4" | 5 => "5"
  | 6 => "6" | 7 => "7" | 8 => "8" | 9 => "9" | 10 => "a" | 11 => "b"
  | 12 => "c" | 13 => "d" | 14 => "e" | _ => "f"
  end.

(** One character of [py_encode_basestring]: the backslash, the double
    quote and the control characters below U+0020 are escaped, every
    other byte (all of UTF-8 above ASCII included) is kept. *)
Definition escape_char (c : ascii) : string :=
  let a := nat_of_ascii c in
  if a =? 92 then "\\"
  else if a =? 34 then "\" ++ PyStr.dq
  else if a =? 8 then "\b"
  else if a =? 12 then "\f"
  else if a =? 10 then "\n"
  else if a =? 13 then "\r"
  else if a =? 9 then "\t"
  else if a <? 32 then "\u00" ++ hex_digit (a / 16) ++ hex_digit (a mod 16)
  else String c EmptyString.

Fixpoint escape (s : string) : string :=
  match s with
  | EmptyString => EmptyString
  | String c r => escape_char c ++ escape r
  end.

Definition encode_basestring (s : string) : string :=
  PyStr.dq ++ escape s ++ PyStr.dq.

(** ['\n' + _indent * level] with [_indent] two spaces. *)
Definition newline_indent (level : nat) : string :=
  PyStr.nl ++ PyStr.repeat "  " level.

(** [_iterencode] at a nesting level; the item separator is [","] and
    the key separator [": "], the defaults when [indent] is given. *)
Fixpoint iterencode (level : nat) (v : json) : string :=
  match v with
  | JNull => "null"
  | JBool true => "true"
  | JBool false => "false"
  | JInt z => PyStr.of_Z z
  | JFloat r => r
  | JStr s => encode_basestring s
  | JList [] => "[]"
  | JList items =>
      "[" ++ newline_indent (S level)
      ++ (fix each (l : list json) : string :=
            match l with
            | [] => EmptyString
            | [x] => iterencode (S level) x
            | x :: l' =>
                iterencode (S level) x ++ "," ++ newline_indent (S level)
                ++ each l'
            end) items
      ++ newline_indent level ++ "]"
  | JDict [] => "{}"
  | JDict fields =>
      "{" ++ newline_indent (S level)
      ++ (fix each (l : list (string * json)) : string :=
            match l with
            | [] => EmptyString
            | [(k, x)] => encode_basestring k ++ ": " ++ iterencode (S level) x
            | (k, x) :: l' =>
                encode_basestring k ++ ": " ++ iterencode (S level) x
                ++ "," ++ newline_indent (S level) ++ each l'
            end) fields
      ++ newline_indent level ++ "}"
  end.

(** [json.dumps(v, indent=2, ensure_ascii=False)] *)
Definition dumps (v : json) : string := iterencode 0 v.

End Json.

(* ================================================================== *)
(** ** Exceptions and the effect monad *)
(* ================================================================== *)

(** An instance of a subclass of [Exception] (what [except Exception]
    catches): its class name and [str(e)]. *)
Record exn : Type := mkExn { exn_class : string; exn_text : string }.

Inductive result (A : Type) : Type :=
| Ok (a : A)
| Raise (e : exn).
Arguments Ok {A} a.
Arguments Raise {A} e.

(** One entry of [chat_history] / of the [messages] payload: the dict
    [{"role": ..., "content": ...}]. *)
Record message : Type := mkMessage { role : string; content : json }.

(** [st.session_state]: a key that was never assigned is [None]. *)
Record session_state : Type := mkSession {
  session_id : option string;
  chat_history : option (list message);
  user_agent : option string
}.

(** What a run does to the outside, in program order. *)
Inductive event : Type :=
(** [load_dotenv(dotenv_path=...)]: the [.env] beside the script is
    looked for and, when it is there, read *)
| LoadDotenv (path : string)
| StSetPageConfig (page_title page_icon : string)
| StTitle (text : string)
| StTextInput (label : string)
| StError (text : string)
(** [st.markdown(f"{label} {value}")], the label and the interpolated value *)
| StMarkdown (label : string) (value : json)
| OpenRead (path : string)
| PathExists (path : string)
| PdfOpen (path : string)
| HttpPost (url : string) (headers : list (string * string))
           (model : string) (messages : list message) (timeout : Z)
| SheetsAuthorize
| SheetsOpen (title : string)
| SheetsWorksheet (title : string)
| AppendRow (row : list json).

Definition M (A : Type) : Type :=
  session_state -> result A * session_state * list event.

Definition ret {A} (a : A) : M A := fun s => (Ok a, s, []).

Definition bind {A B} (m : M A) (f : A -> M B) : M B :=
  fun s =>
    match m s with
    | (Ok a, s1, t1) => let '(r, s2, t2) := f a s1 in (r, s2, (t1 ++ t2)%list)
    | (Raise e, s1, t1) => (Raise e, s1, t1)
    end.

Definition raise {A} (e : exn) : M A := fun s => (Raise e, s, []).

(** [try: m / except Exception as e: h e] *)
Definition try_except {A} (m : M A) (h : exn -> M A) : M A :=
  fun s =>
    match m s with
    | (Ok a, s1, t1) => (Ok a, s1, t1)
    | (Raise e, s1, t1) => let '(r, s2, t2) := h e s1 in (r, s2, (t1 ++ t2)%list)
    end.

Definition emit (ev : event) : M unit := fun s => (Ok tt, s, [ev]).
Definition get : M session_state := fun s => (Ok s, s, []).
Definition put (s' : session_state) : M unit := fun _ => (Ok tt, s', []).

(** The outcome of an outside call, brought into [M]. *)
Definition lift {A} (r : result A) : M A := fun s => (r, s, []).

(** An outside call that returns nothing the script looks at. *)
Definition attempt (o : option exn) : M unit :=
  match o with
  | None => ret tt
  | Some e => raise e
  end.

Declare Scope py_scope.
Delimit Scope py_scope with py.
Notation "x <- m ;; k" := (bind m (fun x => k))
  (at level 61, m at next level, right associativity) : py_scope.
Notation "m ;; k" := (bind m (fun _ => k))
  (at level 61, right associativity) : py_scope.
Local Open Scope py_scope.

(** [for x in l: body x] *)
Fixpoint for_each {A} (l : list A) (body : A -> M unit) : M unit :=
  match l with
  | [] => ret tt
  | x :: l' => body x ;; for_each l' body
  end.

(* ================================================================== *)
(** ** Subscripting a value that came out of JSON *)
(* ================================================================== *)

Module Py.

Definition type_name (v : json) : string :=
  match v with
  | JNull => "NoneType"
  | JBool _ => "bool"
  | JInt _ => "int"
  | JFloat _ => "float"
  | JStr _ => "str"
  | JList _ => "list"
  | JDict _ => "dict"
  end.

Fixpoint lookup (k : string) (fields : list (string * json)) : option json :=
  match fields with
  | [] => None
  | (k', v) :: rest => if String.eqb k k' then Some v else lookup k rest
  end.

Definition not_subscriptable (v : json) : exn :=
  mkExn "TypeError" ("'" ++ type_name v ++ "' object is not subscriptable").

(** [v[k]] for a [str] key [k]; the texts of the exceptions are those
    of CPython 3.11 and later. *)
Definition getitem_str (v : json) (k : string) : result json :=
  match v with
  | JDict fields =>
      match lookup k fields with
      | Some x => Ok x
      | None => Raise (mkExn "KeyError" ("'" ++ k ++ "'"))
      end
  | JList _ =>
      Raise (mkExn "TypeError" "list indices must be integers or slices, not str")
  | JStr _ =>
      Raise (mkExn "TypeError" "string indices must be integers, not 'str'")
  | _ => Raise (not_subscriptable v)
  end.

(** [v[0]] *)
Definition getitem_0 (v : json) : result json :=
  match v with
  | JList (x :: _) => Ok x
  | JList [] => Raise (mkExn "IndexError" "list index out of range")
  | JStr s =>
      match PyStr.first_char s with
      | Some c => Ok (JStr c)
      | None => Raise (mkExn "IndexError" "string index out of range")
      end
  | JDict _ => Raise (mkExn "KeyError" "0")
  | _ => Raise (not_subscriptable v)
  end.

End Py.

(* ================================================================== *)
(** ** The outside world of one script run *)
(* ================================================================== *)

(** What [requests.post] hands back: the status line, the final URL and
    the outcome of [response.json()] on the body. *)
Record response : Type := mkResponse {
  status_code : Z;
  reason : string;
  url : string;
  json_body : result json
}.

(** [CV.pdf]: missing, refused by [pdfplumber], or the
    [page.extract_text()] of each page in order (an empty text also
    stands for a page without text). *)
Inductive cv_file : Type :=
| CvAbsent
| CvUnreadable (e : exn)
| CvPages (texts : list string).

(** The spreadsheet service: for each call the exception it raises, if
    any. *)
Record sheets : Type := mkSheets {
  json_loads_creds : option exn;
  from_service_account_info : option exn;
  authorize : option exn;
  open_spreadsheet : option exn;
  worksheet : option exn;
  append_row : option exn
}.

Record world : Type := mkWorld {
  (** [os.getenv] once [load_dotenv] has run *)
  getenv : string -> option string;
  (** [str(uuid.uuid4())] *)
  uuid4 : string;
  (** [open("prompt.txt").read()] *)
  prompt_txt : result string;
  (** [json.load(open("knowledge.json"))] *)
  knowledge_json : result json;
  cv_pdf : cv_file;
  (** the value of the [st.text_input] widget *)
  text_input : string;
  (** [requests.post(...)] *)
  post : result response;
  (** [int((time.time() - start_time) * 1000)] *)
  elapsed_ms : Z;
  (** [datetime.utcnow().isoformat()] *)
  utcnow : string;
  gsheets : sheets
}.

(* ================================================================== *)
(** ** The program *)
(* ================================================================== *)

(** Lines 22-24: the module-level [OPENAI_API_KEY]. *)
Definition missing_api_key : exn :=
  mkExn "ValueError" "⚠️ No se encontró LLM_API_KEY en el archivo .env".

Definition OPENAI_API_KEY (w : world) : result string :=
  match getenv w "LLM_API_KEY" with
  | Some key => if PyStr.truthy key then Ok key else Raise missing_api_key
  | None => Raise missing_api_key
  end.

Definition load_prompt (w : world) : M string :=
  emit (OpenRead "prompt.txt") ;;
  lift (prompt_txt w).

Definition load_knowledge (w : world) : M json :=
  emit (OpenRead "knowledge.json") ;;
  lift (knowledge_json w).

(** The loop of [load_cv]: [cv_text += page.extract_text() + "\n"] for
    the pages whose text is truthy. *)
Fixpoint cv_pages (cv_text : string) (texts : list string) : string :=
  match texts with
  | [] => cv_text
  | t :: rest =>
      if PyStr.truthy t then cv_pages (cv_text ++ t ++ PyStr.nl) rest
      else cv_pages cv_text rest
  end.

Definition load_cv (w : world) : M string :=
  let cv_text := EmptyString in
  emit (PathExists "CV.pdf") ;;
  match cv_pdf w with
  | CvAbsent => ret (PyStr.strip cv_text)
  | CvUnreadable e => emit (PdfOpen "CV.pdf") ;; raise e
  | CvPages texts =>
      emit (PdfOpen "CV.pdf") ;;
      ret (PyStr.strip (cv_pages cv_text texts))
  end.

(** The handle [gspread.authorize] returns. *)
Inductive gspread_client : Type := Client.

Definition get_gsheets_client (w : world) : M (option gspread_client) :=
  try_except
    (let google_creds_json := getenv w "GOOGLE_CREDENTIALS_JSON" in
     if negb (PyStr.truthy_opt google_creds_json) then
       emit (StError "⚠️ No se encontró GOOGLE_CREDENTIALS_JSON en los secrets") ;;
       ret None
     else
       attempt (json_loads_creds (gsheets w)) ;;
       attempt (from_service_account_info (gsheets w)) ;;
       emit SheetsAuthorize ;;
       attempt (authorize (gsheets w)) ;;
       ret (Some Client))
    (fun e =>
       emit (StError ("Error conectando con Google Sheets: " ++ exn_text e)) ;;
       ret None).

(** The [AttributeError] of [st.session_state] for an attribute that
    was never assigned, with the text of [_missing_attr_error_message]
    of Streamlit (1.32 and later). *)
Definition missing_attribute (name : string) : exn :=
  mkExn "AttributeError"
    ("st.session_state has no attribute " ++ PyStr.dq ++ name ++ PyStr.dq
     ++ ". Did you forget to initialize it? More info: "
     ++ "https://docs.streamlit.io/develop/concepts/architecture/session-state#initialization").

(** [str(st.session_state.session_id)] *)
Definition read_session_id : M string :=
  s <- get ;;
  match session_id s with
  | Some i => ret i
  | None => raise (missing_attribute "session_id")
  end.

Definition log_interaction (w : world) (user_input : string)
    (assistant_reply : json) (duration_ms : Z) (agent : string) : M unit :=
  try_except
    (client <- get_gsheets_client w ;;
     match client with
     | None => ret tt
     | Some _ =>
         emit (SheetsOpen "estadisticas_asistente") ;;
         attempt (open_spreadsheet (gsheets w)) ;;
         emit (SheetsWorksheet "interacciones") ;;
         attempt (worksheet (gsheets w)) ;;
         sid <- read_session_id ;;
         let row := [ JStr (utcnow w); JStr sid; JStr user_input;
                      assistant_reply; JInt duration_ms; JStr agent ] in
         emit (AppendRow row) ;;
         attempt (append_row (gsheets w))
     end)
    (fun e =>
       emit (StError ("No se pudo registrar en Google Sheets: " ++ exn_text e))).

(** [response.raise_for_status()] of [requests]. *)
Definition raise_for_status (r : response) : M unit :=
  let code := status_code r in
  if ((400 <=? code) && (code <? 500))%Z then
    raise (mkExn "HTTPError"
             (PyStr.of_Z code ++ " Client Error: " ++ reason r
              ++ " for url: " ++ url r))
  else if ((500 <=? code) && (code <? 600))%Z then
    raise (mkExn "HTTPError"
             (PyStr.of_Z code ++ " Server Error: " ++ reason r
              ++ " for url: " ++ url r))
  else ret tt.

Definition getenv_default (w : world) (name default : string) : string :=
  match getenv w name with
  | Some v => v
  | None => default
  end.

Definition call_llm_api (w : world) (api_key : string)
    (messages : list message) : M json :=
  let model := getenv_default w "LLM_MODEL" "gpt-4o-mini" in
  let api_url :=
    getenv_default w "LLM_API_URL" "https://api.openai.com/v1/chat/completions" in
  let headers := [ ("Authorization", "Bearer " ++ api_key);
                   ("Content-Type", "application/json") ] in
  emit (HttpPost api_url headers model messages 60%Z) ;;
  response <- lift (post w) ;;
  raise_for_status response ;;
  body <- lift (json_body response) ;;
  choices <- lift (Py.getitem_str body "choices") ;;
  first <- lift (Py.getitem_0 choices) ;;
  msg <- lift (Py.getitem_str first "message") ;;
  lift (Py.getitem_str msg "content").

(** Lines 134-142: the system message built from the three sources. *)
Definition closing_instruction : string :=
  "Usa esta información para responder de manera precisa, clara y profesional.".

Definition system_content (base_prompt : string) (knowledge : json)
    (cv_text : string) : string :=
  base_prompt ++ PyStr.nl ++ PyStr.nl
  ++ "Información de knowledge.json:" ++ PyStr.nl
  ++ Json.dumps knowledge ++ PyStr.nl ++ PyStr.nl
  ++ "Extracto de CV:" ++ PyStr.nl ++ cv_text ++ PyStr.nl ++ PyStr.nl
  ++ closing_instruction.

Definition system_message (base_prompt : string) (knowledge : json)
    (cv_text : string) : message :=
  mkMessage "system" (JStr (system_content base_prompt knowledge cv_text)).

(** Lines 144-145: [[system_message] + chat_history], a fresh list, then
    the new question appended to it ([chat_history] itself is left as it
    was). *)
Definition assemble (base_prompt : string) (knowledge : json)
    (cv_text : string) (history : list message) (user_input : string)
    : list message :=
  let messages := ([system_message base_prompt knowledge cv_text] ++ history)%list in
  (messages ++ [mkMessage "user" (JStr user_input)])%list.

(** [st.session_state.chat_history] *)
Definition read_chat_history : M (list message) :=
  s <- get ;;
  match chat_history s with
  | Some h => ret h
  | None => raise (missing_attribute "chat_history")
  end.

(** [st.session_state.chat_history.append(m)] *)
Definition append_chat_history (m : message) : M unit :=
  h <- read_chat_history ;;
  s <- get ;;
  put (mkSession (session_id s) (Some (h ++ [m])%list) (user_agent s)).

(** The last loop of [main]. *)
Definition show (msg : message) : M unit :=
  if String.eqb (role msg) "user" then emit (StMarkdown "**Tú:**" (content msg))
  else emit (StMarkdown "**Asistente:**" (content msg)).

Definition main (w : world) (api_key : string) : M unit :=
  emit (StSetPageConfig "Asistente Virtual Personalizado" "🤖") ;;
  emit (StTitle "Asistente Virtual Personalizado") ;;
  s <- get ;;
  (match session_id s with
   | None => put (mkSession (Some (uuid4 w)) (chat_history s) (user_agent s))
   | Some _ => ret tt
   end) ;;
  s <- get ;;
  (match chat_history s with
   | None => put (mkSession (session_id s) (Some []) (user_agent s))
   | Some _ => ret tt
   end) ;;
  base_prompt <- load_prompt w ;;
  knowledge <- load_knowledge w ;;
  cv_text <- load_cv w ;;
  emit (StTextInput "Hazme una pregunta:") ;;
  let user_input := text_input w in
  (if PyStr.truthy user_input then
     history <- read_chat_history ;;
     let messages := assemble base_prompt knowledge cv_text history user_input in
     assistant_reply <-
       try_except (call_llm_api w api_key messages)
         (fun e => ret (JStr ("Error consultando el modelo: " ++ exn_text e))) ;;
     let duration_ms := elapsed_ms w in
     s <- get ;;
     let agent :=
       match user_agent s with
       | Some a => a
       | None => "streamlit-client"
       end in
     append_chat_history (mkMessage "user" (JStr user_input)) ;;
     append_chat_history (mkMessage "assistant" assistant_reply) ;;
     log_interaction w user_input assistant_reply duration_ms agent
   else ret tt) ;;
  history <- read_chat_history ;;
  for_each history show.

(** One run of the script: the module level (lines 17-24), then
    [main()].  [load_dotenv] returns normally whether [.env] is there or
    not; what it adds to the environment is part of [getenv]. *)
Definition script (w : world) : M unit :=
  emit (LoadDotenv ".env") ;;
  api_key <- lift (OPENAI_API_KEY w) ;;
  main w api_key.

(** A session: the script re-run once per widget interaction, the
    session state carried from one run to the next. *)
Definition run (w : world) (s : session_state) : session_state :=
  snd (fst (script w s)).

Definition trace (w : world) (s : session_state) : list event :=
  snd (script w s).

Definition outcome (w : world) (s : session_state) : result unit :=
  fst (fst (script w s)).

Fixpoint session (ws : list world) (s : session_state) : session_state :=
  match ws with
  | [] => s
  | w :: rest => session rest (run w s)
  end.

(** A browser session starts with nothing in [st.session_state]. *)
Definition fresh : session_state := mkSession None None None.

(** The history as the script sees it between runs. *)
Definition history_of (s : session_state) : list message :=
  match chat_history s with
  | Some h => h
  | None => []
  end.

(* ================================================================== *)
(** ** Reading a trace *)
(* ================================================================== *)

(** The [messages] payloads sent to the completion endpoint, in order. *)
Fixpoint posted (t : list event) : list (list message) :=
  match t with
  | [] => []
  | HttpPost _ _ _ messages _ :: rest => messages :: posted rest
  | _ :: rest => posted rest
  end.

(** The timeouts of the requests sent, in order. *)
Fixpoint timeouts (t : list event) : list Z :=
  match t with
  | [] => []
  | HttpPost _ _ _ _ timeout :: rest => timeout :: timeouts rest
  | _ :: rest => timeouts rest
  end.

(** The rows handed to [sheet.append_row], in order. *)
Fixpoint rows (t : list event) : list (list json) :=
  match t with
  | [] => []
  | AppendRow row :: rest => row :: rows rest
  | _ :: rest => rows rest
  end.

(** The texts shown through [st.error], in order. *)
Fixpoint warnings (t : list event) : list string :=
  match t with
  | [] => []
  | StError text :: rest => text :: warnings rest
  | _ :: rest => warnings rest
  end.

(** Events of the logging path: the spreadsheet calls and [st.error]. *)
Definition is_log_event (ev : event) : bool :=
  match ev with
  | StError _ | SheetsAuthorize | SheetsOpen _ | SheetsWorksheet _
  | AppendRow _ => true
  | _ => false
  end.

(** The files the run looked for or opened to build its context, in
    order. *)
Fixpoint loads (t : list event) : list string :=
  match t with
  | [] => []
  | OpenRead path :: rest => path :: loads rest
  | PathExists path :: rest => path :: loads rest
  | _ :: rest => loads rest
  end.

(** The traces of the runs of a session, one after the other. *)
Fixpoint session_trace (ws : list world) (s : session_state) : list event :=
  match ws with
  | [] => []
  | w :: rest => (trace w s ++ session_trace rest (run w s))%list
  end.

(** The event the display loop produces for one message. *)
Definition shown (msg : message) : event :=
  if String.eqb (role msg) "user" then StMarkdown "**Tú:**" (content msg)
  else StMarkdown "**Asistente:**" (content msg).

(** What [load_cv] returns or raises, read off the state of [CV.pdf]. *)
Definition reference_text (w : world) : result string :=
  fst (fst (load_cv w (mkSession None None None))).

(** What [load_cv] does to the outside. *)
Definition cv_trace (w : world) : list event :=
  snd (load_cv w (mkSession None None None)).

(** What [call_llm_api] returns or raises: it depends on the HTTP
    exchange alone (lemma [call_llm_api_run]). *)
Definition completion (w : world) : result json :=
  fst (fst (call_llm_api w EmptyString [] (mkSession None None None))).

(** The [assistant_reply] of lines 147-150. *)
Definition reply_of (w : world) : json :=
  match completion w with
  | Ok v => v
  | Raise e => JStr ("Error consultando el modelo: " ++ exn_text e)
  end.

Definition user_turn (u : string) : message := mkMessage "user" (JStr u).
Definition assistant_turn (v : json) : message := mkMessage "assistant" v.

(** The three sources are readable and the API key is configured. *)
Definition ready (w : world) (key p : string) (k : json) (cv : string) : Prop :=
  OPENAI_API_KEY w = Ok key /\ prompt_txt w = Ok p
  /\ knowledge_json w = Ok k /\ reference_text w = Ok cv.

(* ================================================================== *)
(** ** Derived notions: what a run returns, leaves behind and shows *)
(* ================================================================== *)

(** The row of lines 85-92. *)
Definition log_row (w : world) (sid user_input : string)
    (assistant_reply : json) (duration_ms : Z) (agent : string) : list json :=
  [ JStr (utcnow w); JStr sid; JStr user_input; assistant_reply;
    JInt duration_ms; JStr agent ].

(** Every step of the logging path goes through. *)
Definition logging_works (w : world) : bool :=
  PyStr.truthy_opt (getenv w "GOOGLE_CREDENTIALS_JSON")
  && match json_loads_creds (gsheets w), from_service_account_info (gsheets w),
           authorize (gsheets w), open_spreadsheet (gsheets w),
           worksheet (gsheets w), append_row (gsheets w) with
     | None, None, None, None, None, None => true
     | _, _, _, _, _, _ => false
     end.

(** What [log_interaction] does to the outside in a session [sid]. *)
Definition log_trace (w : world) (sid user_input : string)
    (assistant_reply : json) (duration_ms : Z) (agent : string) : list event :=
  snd (log_interaction w user_input assistant_reply duration_ms agent
         (mkSession (Some sid) None None)).

(** The session id of a run: the stored one, or a new uuid (lines
    118-119). *)
Definition session_id_in (w : world) (s : session_state) : string :=
  match session_id s with
  | Some i => i
  | None => uuid4 w
  end.

(** [st.session_state.get("user_agent", "streamlit-client")] *)
Definition agent_in (s : session_state) : string :=
  match user_agent s with
  | Some a => a
  | None => "streamlit-client"
  end.

(** The session state once lines 118-122 have run. *)
Definition started (w : world) (s : session_state) : session_state :=
  mkSession (Some (session_id_in w s)) (Some (history_of s)) (user_agent s).

(** The session state after an exchange. *)
Definition exchanged (w : world) (s : session_state) : session_state :=
  mkSession (Some (session_id_in w s))
    (Some ((history_of s ++ [user_turn (text_input w)])
           ++ [assistant_turn (reply_of w)])%list)
    (user_agent s).

(** The request of [call_llm_api]. *)
Definition post_event (w : world) (key : string) (msgs : list message) : event :=
  HttpPost
    (getenv_default w "LLM_API_URL" "https://api.openai.com/v1/chat/completions")
    [("Authorization", "Bearer " ++ key); ("Content-Type", "application/json")]
    (getenv_default w "LLM_MODEL" "gpt-4o-mini") msgs 60%Z.

(** What [main] does up to and including the text widget. *)
Definition opening (w : world) (rest : list event) : list event :=
  StSetPageConfig "Asistente Virtual Personalizado" "🤖"
  :: StTitle "Asistente Virtual Personalizado"
  :: OpenRead "prompt.txt"
  :: OpenRead "knowledge.json"
  :: (cv_trace w ++ StTextInput "Hazme una pregunta:" :: rest)%list.

(** The trace of a run that makes an exchange. *)
Definition turn_trace (w : world) (key p : string) (k : json) (cv : string)
    (s : session_state) : list event :=
  opening w
    (post_event w key (assemble p k cv (history_of s) (text_input w))
     :: (log_trace w (session_id_in w s) (text_input w) (reply_of w)
           (elapsed_ms w) (agent_in s)
         ++ map shown (history_of (exchanged w s)))%list).

(** The trace of a run whose widget is empty. *)
Definition idle_trace (w : world) (s : session_state) : list event :=
  opening w (map shown (history_of s)).

(** A source that cannot be read ends the run before the widget. *)
Definition fatal_trace (w : world) : list event :=
  StSetPageConfig "Asistente Virtual Personalizado" "🤖"
  :: StTitle "Asistente Virtual Personalizado"
  :: OpenRead "prompt.txt"
  :: match prompt_txt w with
     | Raise _ => []
     | Ok _ =>
         OpenRead "knowledge.json"
         :: match knowledge_json w with
            | Raise _ => []
            | Ok _ => cv_trace w
            end
     end.

(** The exception of the first source that cannot be read, if any. *)
Definition load_failure (w : world) : option exn :=
  match prompt_txt w, knowledge_json w, reference_text w with
  | Raise e, _, _ => Some e
  | Ok _, Raise e, _ => Some e
  | Ok _, Ok _, Raise e => Some e
  | Ok _, Ok _, Ok _ => None
  end.

(** The three sources, in the order [main] loads them. *)
Definition context_files : list string :=
  ["prompt.txt"; "knowledge.json"; "CV.pdf"].

(** The sources a run looks up, read off the world: none without the
    API key, those up to the first of [prompt.txt] and [knowledge.json]
    that cannot be read, all three otherwise. *)
Definition sources_looked_up (w : world) : list string :=
  match OPENAI_API_KEY w with
  | Raise _ => []
  | Ok _ =>
      match prompt_txt w with
      | Raise _ => ["prompt.txt"]
      | Ok _ =>
          match knowledge_json w with
          | Raise _ => ["prompt.txt"; "knowledge.json"]
          | Ok _ => ["prompt.txt"; "knowledge.json"; "CV.pdf"]
          end
      end
  end.

(** A run that makes no exchange talks neither to the endpoint nor to
    the log store. *)
Definition quiet (t : list event) : Prop :=
  posted t = [] /\ timeouts t = [] /\ rows t = [] /\ warnings t = []
  /\ existsb is_log_event t = false.

(** Two worlds that may differ in the logging path only: the log-store
    credentials, the spreadsheet service and the clocks. *)
Definition agree_outside_logging (w w' : world) : Prop :=
  getenv w "LLM_API_KEY" = getenv w' "LLM_API_KEY"
  /\ uuid4 w = uuid4 w'
  /\ prompt_txt w = prompt_txt w'
  /\ knowledge_json w = knowledge_json w'
  /\ cv_pdf w = cv_pdf w'
  /\ text_input w = text_input w'
  /\ post w = post w'.

(** [raise_for_status] raises exactly for the statuses 400..599. *)
Definition http_error (r : response) : bool :=
  ((400 <=? status_code r) && (status_code r <? 600))%Z.

(** The value at [choices[0].message.content] of a response body, when
    the body is a dict whose [choices] is a non-empty list whose first
    item is a dict whose [message] is a dict with a [content] key. *)
Definition reply_at (body : json) : option json :=
  match body with
  | JDict top =>
      match Py.lookup "choices" top with
      | Some (JList (JDict choice :: _)) =>
          match Py.lookup "message" choice with
          | Some (JDict msg) => Py.lookup "content" msg
          | _ => None
          end
      | _ => None
      end
  | _ => None
  end.

(** Subscripting along [["choices"][0]["message"]["content"]], the last
    line of [call_llm_api]. *)
Definition content_path (body : json) : result json :=
  match Py.getitem_str body "choices" with
  | Raise e => Raise e
  | Ok choices =>
      match Py.getitem_0 choices with
      | Raise e => Raise e
      | Ok first =>
          match Py.getitem_str first "message" with
          | Raise e => Raise e
          | Ok msg => Py.getitem_str msg "content"
          end
      end
  end.

(** The loop of [_iterencode_list] over the items: the inner [fix] of
    [Json.iterencode], by itself. *)
Definition each_item (level : nat) : list json -> string :=
  fix each (l : list json) : string :=
    match l with
    | [] => EmptyString
    | [x] => Json.iterencode (S level) x
    | x :: l' =>
        Json.iterencode (S level) x ++ "," ++ Json.newline_indent (S level)
        ++ each l'
    end.

(** The loop of [_iterencode_dict] over the items, likewise. *)
Definition each_field (level : nat) : list (string * json) -> string :=
  fix each (l : list (string * json)) : string :=
    match l with
    | [] => EmptyString
    | [(k, x)] =>
        Json.encode_basestring k ++ ": " ++ Json.iterencode (S level) x
    | (k, x) :: l' =>
        Json.encode_basestring k ++ ": " ++ Json.iterencode (S level) x
        ++ "," ++ Json.newline_indent (S level) ++ each l'
    end.

(** The [str] [s] is somewhere in a JSON value: the value itself, or an
    item of a list, a value or a key of a dict, at any depth. *)
Inductive occurs (s : string) : json -> Prop :=
| occurs_here : occurs s (JStr s)
| occurs_item (items : list json) (v : json) :
    In v items -> occurs s v -> occurs s (JList items)
| occurs_value (fields : list (string * json)) (k : string) (v : json) :
    In (k, v) fields -> occurs s v -> occurs s (JDict fields)
| occurs_key (fields : list (string * json)) (v : json) :
    In (s, v) fields -> occurs s (JDict fields).

(** [small in big] *)
Definition contains (big small : string) : Prop :=
  exists before after, big = before ++ small ++ after.

(** A page text as [join] and [strip] see it: not empty, and without
    whitespace at either end. *)
Definition trimmed (t : string) : Prop :=
  t <> EmptyString /\ PyStr.drop_ws false t = t
  /\ PyStr.drop_ws true (PyStr.rev t) = PyStr.rev t.

(** The text of the pages that have some, each followed by a newline. *)
Fixpoint page_lines (texts : list string) : string :=
  match texts with
  | [] => EmptyString
  | t :: rest =>
      if PyStr.truthy t then t ++ PyStr.nl ++ page_lines rest
      else page_lines rest
  end.

(* ================================================================== *)
(** ** Sample worlds *)
(* ================================================================== *)

Module Sample.

Definition env_key (name : string) : option string :=
  if String.eqb name "LLM_API_KEY" then Some "sk-test" else None.

Definition env_logging (name : string) : option string :=
  if String.eqb name "LLM_API_KEY" then Some "sk-test"
  else if String.eqb name "GOOGLE_CREDENTIALS_JSON" then Some "{...}"
  else None.

Definition sheets_ok : sheets := mkSheets None None None None None None.

Definition sheets_no_spreadsheet : sheets :=
  mkSheets None None None
    (Some (mkExn "SpreadsheetNotFound" "<Response [200]>")) None None.

(** A response body with one choice whose message content is [c]. *)
Definition reply_body (c : json) : json :=
  JDict [("choices",
          JList [JDict [("index", JInt 0);
                        ("message", JDict [("role", JStr "assistant");
                                           ("content", c)])]])].

Definition answered (status : Z) (text : string) (c : json) : result response :=
  Ok (mkResponse status text "https://api.openai.com/v1/chat/completions"
        (Ok (reply_body c))).

Definition knowledge : json := JDict [("experience_years", JInt 5)].

Definition world_of (env : string -> option string) (prompt : string)
    (cv : cv_file) (input : string) (exchange : result response)
    (service : sheets) : world :=
  mkWorld env "0b9f2c1e-6d5a-4c3b-9a8f-7e6d5c4b3a21" (Ok prompt) (Ok knowledge)
    cv input exchange 1234%Z "2024-05-01T10:00:00.123456" service.

Definition acme_reply : string := "5 years, most recently at Acme Corp.".

(** The question about experience, answered by the endpoint. *)
Definition acme : world :=
  world_of env_key "Eres un asistente." (CvPages ["Worked at Acme Corp."])
    "What is your experience?" (answered 200 "OK" (JStr acme_reply)) sheets_ok.

(** The same turn with the log store configured and working. *)
Definition acme_logged : world :=
  world_of env_logging "Eres un asistente." (CvPages ["Worked at Acme Corp."])
    "What is your experience?" (answered 200 "OK" (JStr acme_reply)) sheets_ok.

(** The same turn with the spreadsheet missing. *)
Definition acme_unlogged : world :=
  world_of env_logging "Eres un asistente." (CvPages ["Worked at Acme Corp."])
    "What is your experience?" (answered 200 "OK" (JStr acme_reply))
    sheets_no_spreadsheet.

(** The same question once [prompt.txt] has been edited. *)
Definition acme_edited : world :=
  world_of env_key "Eres un pirata." (CvPages ["Worked at Acme Corp."])
    "What is your experience?" (answered 200 "OK" (JStr acme_reply)) sheets_ok.

(** The endpoint answers HTTP 500. *)
Definition http500 : world :=
  world_of env_key "Eres un asistente." (CvPages ["Worked at Acme Corp."])
    "What is your experience?"
    (Ok (mkResponse 500 "Internal Server Error"
           "https://api.openai.com/v1/chat/completions"
           (Raise (mkExn "JSONDecodeError"
                     "Expecting value: line 1 column 1 (char 0)"))))
    sheets_ok.

(** The endpoint answers HTTP 300 with a well-formed body. *)
Definition http300 : world :=
  world_of env_key "Eres un asistente." CvAbsent "Hola"
    (answered 300 "Multiple Choices" (JStr "Buenos días")) sheets_ok.

(** The endpoint answers HTTP 200 with a [null] content. *)
Definition null_content : world :=
  world_of env_key "Eres un asistente." CvAbsent "Hola"
    (answered 200 "OK" JNull) sheets_ok.

(** The widget holds a single space. *)
Definition blank : world :=
  world_of env_key "Eres un asistente." CvAbsent " "
    (answered 200 "OK" (JStr "Hola")) sheets_ok.

(** The widget is empty. *)
Definition idle : world :=
  world_of env_key "Eres un asistente." CvAbsent EmptyString
    (answered 200 "OK" (JStr "Hola")) sheets_ok.

(** A three-page document whose second page has no text. *)
Definition three_pages : world :=
  world_of env_key "Eres un asistente." (CvPages ["Hola"; EmptyString; "Mundo"])
    "Hola" (answered 200 "OK" (JStr "Hola")) sheets_ok.

Definition acme_system : string :=
  "Eres un asistente." ++ PyStr.nl ++ PyStr.nl
  ++ "Información de knowledge.json:" ++ PyStr.nl
  ++ "{" ++ PyStr.nl ++ "  " ++ PyStr.dq ++ "experience_years" ++ PyStr.dq
  ++ ": 5" ++ PyStr.nl ++ "}" ++ PyStr.nl ++ PyStr.nl
  ++ "Extracto de CV:" ++ PyStr.nl ++ "Worked at Acme Corp."
  ++ PyStr.nl ++ PyStr.nl
  ++ "Usa esta información para responder de manera precisa, clara y profesional.".

End Sample.

(* ================================================================== *)
(** ** Further readers of a trace, and the steps of the logging path *)
(* ================================================================== *)

(** The label the display loop puts before a message (lines 162-165). *)
Definition label_of (msg : message) : string :=
  if String.eqb (role msg) "user" then "**Tú:**" else "**Asistente:**".

(** What [st.markdown] showed: label and value, in order. *)
Fixpoint displayed (t : list event) : list (string * json) :=
  match t with
  | [] => []
  | StMarkdown label value :: rest => (label, value) :: displayed rest
  | _ :: rest => displayed rest
  end.

(** The URL, the headers and the model of the requests sent, in order. *)
Fixpoint requests (t : list event)
    : list (string * list (string * string) * string) :=
  match t with
  | [] => []
  | HttpPost url headers model _ _ :: rest =>
      (url, headers, model) :: requests rest
  | _ :: rest => requests rest
  end.

(** The calls made to the spreadsheet service, in order. *)
Fixpoint sheet_calls (t : list event) : list event :=
  match t with
  | [] => []
  | SheetsAuthorize :: rest => SheetsAuthorize :: sheet_calls rest
  | SheetsOpen title :: rest => SheetsOpen title :: sheet_calls rest
  | SheetsWorksheet title :: rest => SheetsWorksheet title :: sheet_calls rest
  | AppendRow row :: rest => AppendRow row :: sheet_calls rest
  | _ :: rest => sheet_calls rest
  end.

(** [get_gsheets_client] gets as far as returning a client. *)
Definition client_available (w : world) : bool :=
  PyStr.truthy_opt (getenv w "GOOGLE_CREDENTIALS_JSON")
  && match json_loads_creds (gsheets w), from_service_account_info (gsheets w),
           authorize (gsheets w) with
     | None, None, None => true
     | _, _, _ => false
     end.

(** [log_interaction] gets as far as calling [append_row]. *)
Definition reaches_append (w : world) : bool :=
  client_available w
  && match open_spreadsheet (gsheets w), worksheet (gsheets w) with
     | None, None => true
     | _, _ => false
     end.

(** The two [st.error] texts of lines 74 and 95, and the one of line 62. *)
Definition connect_error (e : exn) : event :=
  StError ("Error conectando con Google Sheets: " ++ exn_text e).

Definition record_error (e : exn) : event :=
  StError ("No se pudo registrar en Google Sheets: " ++ exn_text e).

Definition no_credentials : event :=
  StError "⚠️ No se encontró GOOGLE_CREDENTIALS_JSON en los secrets".

(** What [get_gsheets_client] does to the outside, step by step. *)
Definition client_steps (w : world) : list event :=
  if negb (PyStr.truthy_opt (getenv w "GOOGLE_CREDENTIALS_JSON"))
  then [no_credentials]
  else
    match json_loads_creds (gsheets w) with
    | Some e => [connect_error e]
    | None =>
        match from_service_account_info (gsheets w) with
        | Some e => [connect_error e]
        | None =>
            SheetsAuthorize
            :: match authorize (gsheets w) with
               | Some e => [connect_error e]
               | None => []
               end
        end
    end.

(** What [log_interaction] does to the outside after it has a client. *)
Definition record_steps (w : world) (row : list json) : list event :=
  SheetsOpen "estadisticas_asistente"
  :: match open_spreadsheet (gsheets w) with
     | Some e => [record_error e]
     | None =>
         SheetsWorksheet "interacciones"
         :: match worksheet (gsheets w) with
            | Some e => [record_error e]
            | None =>
                AppendRow row
                :: match append_row (gsheets w) with
                   | Some e => [record_error e]
                   | None => []
                   end
            end
     end.

(** A [str] that [json.dumps] has nothing to escape in: no control
    character, no double quote, no backslash. *)
Fixpoint plain (s : string) : bool :=
  match s with
  | EmptyString => true
  | String c r =>
      let a := nat_of_ascii c in
      (32 <=? a) && negb (a =? 34) && negb (a =? 92) && plain r
  end.

(** The sizes [first], [first + 2], [first + 4], ... of [n] requests. *)
Fixpoint request_sizes (first : nat) (n : nat) : list nat :=
  match n with
  | O => []
  | S n' => first :: request_sizes (first + 2) n'
  end.

(** The four ways a run of the script can go: no API key; a source that
    cannot be read; an empty widget; an exchange. *)
Inductive run_case (w : world) (s : session_state)
    : result unit * session_state * list event -> Prop :=
| NoKey (e : exn) :
    OPENAI_API_KEY w = Raise e ->
    run_case w s (Raise e, s, [LoadDotenv ".env"])
| Fatal (key : string) (e : exn) :
    OPENAI_API_KEY w = Ok key -> load_failure w = Some e ->
    run_case w s (Raise e, started w s, LoadDotenv ".env" :: fatal_trace w)
| Idle (key p : string) (k : json) (cv : string) :
    ready w key p k cv -> PyStr.truthy (text_input w) = false ->
    run_case w s (Ok tt, started w s, LoadDotenv ".env" :: idle_trace w s)
| Turn (key p : string) (k : json) (cv : string) :
    ready w key p k cv -> PyStr.truthy (text_input w) = true ->
    run_case w s
      (Ok tt, exchanged w s, LoadDotenv ".env" :: turn_trace w key p k cv s).

Module More.

Definition env_none (name : string) : option string := None.

Definition env_empty_key (name : string) : option string :=
  if String.eqb name "LLM_API_KEY" then Some EmptyString else None.

Definition env_custom (name : string) : option string :=
  if String.eqb name "LLM_API_KEY" then Some "sk-test"
  else if String.eqb name "LLM_MODEL" then Some EmptyString
  else if String.eqb name "LLM_API_URL" then Some "http://localhost:8080/v1"
  else None.

Definition file_not_found (path : string) : exn :=
  mkExn "FileNotFoundError"
    ("[Errno 2] No such file or directory: '" ++ path ++ "'").

(** No API key in the environment. *)
Definition no_key : world :=
  Sample.world_of env_none "Eres un asistente." CvAbsent "Hola"
    (Sample.answered 200 "OK" (JStr "Hola")) Sample.sheets_ok.

(** [prompt.txt] is missing. *)
Definition no_prompt : world :=
  mkWorld Sample.env_key "0b9f2c1e-6d5a-4c3b-9a8f-7e6d5c4b3a21"
    (Raise (file_not_found "prompt.txt")) (Ok Sample.knowledge)
    (CvPages ["Worked at Acme Corp."]) "Hola"
    (Sample.answered 200 "OK" (JStr "Hola")) 1234%Z
    "2024-05-01T10:00:00.123456" Sample.sheets_ok.

(** [knowledge.json] is missing. *)
Definition no_knowledge : world :=
  mkWorld Sample.env_key "0b9f2c1e-6d5a-4c3b-9a8f-7e6d5c4b3a21"
    (Ok "Eres un asistente.") (Raise (file_not_found "knowledge.json"))
    (CvPages ["Worked at Acme Corp."]) "Hola"
    (Sample.answered 200 "OK" (JStr "Hola")) 1234%Z
    "2024-05-01T10:00:00.123456" Sample.sheets_ok.

(** [CV.pdf] exists and is not a PDF: [pdfplumber.open] raises its
    [PdfminerException] around the error of [pdfminer]. *)
Definition broken_cv : world :=
  Sample.world_of Sample.env_key "Eres un asistente."
    (CvUnreadable
       (mkExn "PdfminerException" "No /Root object! - Is this really a PDF?"))
    "Hola" (Sample.answered 200 "OK" (JStr "Hola")) Sample.sheets_ok.

(** [CV.pdf] is a scan: two pages, no text. *)
Definition scanned_cv : world :=
  Sample.world_of Sample.env_key "Eres un asistente."
    (CvPages [EmptyString; EmptyString])
    "Hola" (Sample.answered 200 "OK" (JStr "Hola")) Sample.sheets_ok.

(** The endpoint answers with a body that has no [choices]. *)
Definition no_choices : world :=
  Sample.world_of Sample.env_key "Eres un asistente." CvAbsent "Hola"
    (Ok (mkResponse 200 "OK" "https://api.openai.com/v1/chat/completions"
           (Ok (JDict [("error", JStr "overloaded")]))))
    Sample.sheets_ok.

(** The model and the URL come from the environment. *)
Definition custom : world :=
  Sample.world_of env_custom "Eres un asistente." CvAbsent "Hola"
    (Sample.answered 200 "OK" (JStr "Hola")) Sample.sheets_ok.

(** The log store refuses the row. *)
Definition sheets_append_refused : sheets :=
  mkSheets None None None None None
    (Some (mkExn "APIError" "quota exceeded")).

Definition append_refused : world :=
  Sample.world_of Sample.env_logging "Eres un asistente." CvAbsent "Hola"
    (Sample.answered 200 "OK" (JStr "Hola")) sheets_append_refused.

(** The credentials are not JSON. *)
Definition sheets_bad_creds : sheets :=
  mkSheets
    (Some (mkExn "JSONDecodeError"
             ("Expecting property name enclosed in double quotes: "
              ++ "line 1 column 2 (char 1)")))
    None None None None None.

Definition bad_creds : world :=
  Sample.world_of Sample.env_logging "Eres un asistente." CvAbsent "Hola"
    (Sample.answered 200 "OK" (JStr "Hola")) sheets_bad_creds.

(** [CV.pdf] has blanks and line ends around the text of its pages. *)
Definition padded_cv : world :=
  Sample.world_of Sample.env_key "Eres un asistente."
    (CvPages ["  Hola  "; "Mundo " ++ PyStr.nl ++ PyStr.nl; "   "])
    "Hola" (Sample.answered 200 "OK" (JStr "Hola")) Sample.sheets_ok.

(** The knowledge record holds accented text, nested. *)
Definition accented_knowledge : json :=
  JDict [("perfil",
          JDict [("ciudad", JStr "São Paulo");
                 ("áreas", JList [JStr "Analítica"; JStr "Ingeniería de datos"])])].

Definition accented : world :=
  mkWorld Sample.env_key "0b9f2c1e-6d5a-4c3b-9a8f-7e6d5c4b3a21"
    (Ok "Eres un asistente.") (Ok accented_knowledge) CvAbsent "Hola"
    (Sample.answered 200 "OK" (JStr "Hola")) 1234%Z
    "2024-05-01T10:00:00.123456" Sample.sheets_ok.

End More.

(* ================================================================== *)
(** ** How the parts of the script run *)
(* ================================================================== *)

Lemma bind_Ok {A B} (m : M A) (f : A -> M B) s a s1 t1 r s2 t2 :
  m s = (Ok a, s1, t1) -> f a s1 = (r, s2, t2) ->
  bind m f s = (r, s2, (t1 ++ t2)%list).
Proof. intros Hm Hf. unfold bind. rewrite Hm, Hf. reflexivity. Qed.

Lemma bind_Raise {A B} (m : M A) (f : A -> M B) s e s1 t1 :
  m s = (Raise e, s1, t1) -> bind m f s = (Raise e, s1, t1).
Proof. intros Hm. unfold bind. rewrite Hm. reflexivity. Qed.

Lemma show_run (m : message) (s : session_state) :
  show m s = (Ok tt, s, [shown m]).
Proof.
  unfold show, shown. destruct (String.eqb (role m) "user"); reflexivity.
Qed.

Lemma for_each_show (h : list message) (s : session_state) :
  for_each h show s = (Ok tt, s, map shown h).
Proof.
  induction h as [|m h IH]; [reflexivity|].
  cbn [for_each map].
  exact (bind_Ok _ _ _ _ _ _ _ _ _ (show_run m s) IH).
Qed.

Lemma load_cv_run (w : world) (s : session_state) :
  load_cv w s = (reference_text w, s, cv_trace w).
Proof.
  unfold reference_text, cv_trace, load_cv. destruct (cv_pdf w); reflexivity.
Qed.

(** Reading the reference document touches neither the endpoint, nor
    the log store, nor the two other sources. *)
Lemma cv_trace_quiet (w : world) :
  posted (cv_trace w) = [] /\ timeouts (cv_trace w) = []
  /\ rows (cv_trace w) = []
  /\ warnings (cv_trace w) = []
  /\ existsb is_log_event (cv_trace w) = false
  /\ loads (cv_trace w) = ["CV.pdf"].
Proof.
  unfold cv_trace, load_cv. destruct (cv_pdf w); cbn; auto 10.
Qed.

Lemma call_llm_api_run (w : world) (key : string) (msgs : list message)
    (s : session_state) :
  call_llm_api w key msgs s
  = (completion w, s,
     [HttpPost (getenv_default w "LLM_API_URL"
                  "https://api.openai.com/v1/chat/completions")
        [("Authorization", "Bearer " ++ key);
         ("Content-Type", "application/json")]
        (getenv_default w "LLM_MODEL" "gpt-4o-mini") msgs 60%Z]).
Proof.
  unfold completion, call_llm_api, bind, lift, emit, raise_for_status.
  destruct (post w) as [r|e]; [|reflexivity].
  destruct ((400 <=? status_code r)%Z && (status_code r <? 500)%Z);
    [reflexivity|].
  destruct ((500 <=? status_code r)%Z && (status_code r <? 600)%Z);
    [reflexivity|].
  cbn. destruct (json_body r) as [b|e]; [|reflexivity].
  destruct (Py.getitem_str b "choices") as [c|e]; [|reflexivity].
  destruct (Py.getitem_0 c) as [f|e]; [|reflexivity].
  destruct (Py.getitem_str f "message") as [m|e]; [|reflexivity].
  destruct (Py.getitem_str m "content"); reflexivity.
Qed.

Ltac oracle o := destruct o as [?e|]; cbn.

Ltac log_done :=
  repeat split; try (intros ? [<-|[]]; reflexivity); try (intros ? []); eauto.

Lemma log_interaction_run (w : world) (user_input : string)
    (assistant_reply : json) (duration_ms : Z) (agent : string)
    (s : session_state) (sid : string) :
  session_id s = Some sid ->
  log_interaction w user_input assistant_reply duration_ms agent s
  = (Ok tt, s, log_trace w sid user_input assistant_reply duration_ms agent).
Proof.
  intros Hsid. destruct s as [osid h ua]. cbn in Hsid. subst osid.
  unfold log_trace, log_interaction, get_gsheets_client, read_session_id,
    try_except, bind, get.
  destruct (getenv w "GOOGLE_CREDENTIALS_JSON") as [[|c g]|]; cbn;
    try reflexivity.
  oracle (json_loads_creds (gsheets w)); [reflexivity|].
  oracle (from_service_account_info (gsheets w)); [reflexivity|].
  oracle (authorize (gsheets w)); [reflexivity|].
  oracle (open_spreadsheet (gsheets w)); [reflexivity|].
  oracle (worksheet (gsheets w)); [reflexivity|].
  oracle (append_row (gsheets w)); reflexivity.
Qed.

Lemma log_trace_spec (w : world) (sid user_input : string)
    (assistant_reply : json) (duration_ms : Z) (agent : string) :
  let t := log_trace w sid user_input assistant_reply duration_ms agent in
  posted t = [] /\ timeouts t = [] /\ forallb is_log_event t = true
  /\ loads t = []
  /\ (forall row, In row (rows t) ->
      row = log_row w sid user_input assistant_reply duration_ms agent)
  /\ (if logging_works w
      then warnings t = []
           /\ rows t = [log_row w sid user_input assistant_reply duration_ms agent]
      else exists text, warnings t = [text]).
Proof.
  intros t. subst t.
  unfold log_trace, log_interaction, get_gsheets_client, read_session_id,
    logging_works, try_except, bind, get.
  destruct (getenv w "GOOGLE_CREDENTIALS_JSON") as [[|c g]|]; cbn;
    try solve [log_done].
  oracle (json_loads_creds (gsheets w)); [log_done|].
  oracle (from_service_account_info (gsheets w)); [log_done|].
  oracle (authorize (gsheets w)); [log_done|].
  oracle (open_spreadsheet (gsheets w)); [log_done|].
  oracle (worksheet (gsheets w)); [log_done|].
  oracle (append_row (gsheets w)); log_done.
Qed.

(** *** One run of [main] *)

Lemma try_call_run (w : world) (key : string) (msgs : list message)
    (s : session_state) :
  try_except (call_llm_api w key msgs)
    (fun e => ret (JStr ("Error consultando el modelo: " ++ exn_text e))) s
  = (Ok (reply_of w), s, [post_event w key msgs]).
Proof.
  unfold try_except, reply_of. rewrite call_llm_api_run.
  destruct (completion w); reflexivity.
Qed.

Ltac crunch :=
  cbn -[load_cv call_llm_api log_interaction for_each assemble try_except
        String.append Json.dumps PyStr.truthy].

Ltac enter_main :=
  unfold main, load_prompt, load_knowledge, read_chat_history,
    append_chat_history, bind.

Lemma main_turn (w : world) (key p : string) (k : json) (cv : string)
    (s : session_state) :
  prompt_txt w = Ok p -> knowledge_json w = Ok k -> reference_text w = Ok cv ->
  PyStr.truthy (text_input w) = true ->
  main w key s = (Ok tt, exchanged w s, turn_trace w key p k cv s).
Proof.
  intros Hp Hk Hcv Hu. enter_main.
  destruct s as [[sid|] [h|] ua]; crunch;
    rewrite Hp; crunch; rewrite Hk; crunch; rewrite load_cv_run, Hcv; crunch;
    rewrite Hu; crunch; rewrite try_call_run; crunch;
    (erewrite log_interaction_run by reflexivity); crunch;
    rewrite for_each_show; crunch; rewrite ?app_nil_r; reflexivity.
Qed.

Lemma main_idle (w : world) (key p : string) (k : json) (cv : string)
    (s : session_state) :
  prompt_txt w = Ok p -> knowledge_json w = Ok k -> reference_text w = Ok cv ->
  PyStr.truthy (text_input w) = false ->
  main w key s = (Ok tt, started w s, idle_trace w s).
Proof.
  intros Hp Hk Hcv Hu. enter_main.
  destruct s as [[sid|] [h|] ua]; crunch;
    rewrite Hp; crunch; rewrite Hk; crunch; rewrite load_cv_run, Hcv; crunch;
    rewrite Hu; crunch; rewrite ?for_each_show; crunch; rewrite ?app_nil_r;
    reflexivity.
Qed.

Lemma main_fatal (w : world) (key : string) (s : session_state) (e : exn) :
  load_failure w = Some e ->
  main w key s = (Raise e, started w s, fatal_trace w).
Proof.
  unfold load_failure, fatal_trace. intros H. enter_main.
  destruct s as [[sid|] [h|] ua]; crunch;
    (destruct (prompt_txt w); crunch;
     [destruct (knowledge_json w); crunch;
      [rewrite load_cv_run; destruct (reference_text w); crunch|]|]);
    rewrite ?app_nil_r; cbn in H; try discriminate;
    injection H as ->; reflexivity.
Qed.

(** *** Reading the traces of a run *)

Section TraceReaders.

Lemma posted_app (a b : list event) :
  posted (a ++ b) = (posted a ++ posted b)%list.
Proof.
  induction a as [|ev a IH]; [reflexivity|].
  destruct ev; cbn; rewrite IH; reflexivity.
Qed.

Lemma timeouts_app (a b : list event) :
  timeouts (a ++ b) = (timeouts a ++ timeouts b)%list.
Proof.
  induction a as [|ev a IH]; [reflexivity|].
  destruct ev; cbn; rewrite IH; reflexivity.
Qed.

Lemma rows_app (a b : list event) :
  rows (a ++ b) = (rows a ++ rows b)%list.
Proof.
  induction a as [|ev a IH]; [reflexivity|].
  destruct ev; cbn; rewrite IH; reflexivity.
Qed.

Lemma warnings_app (a b : list event) :
  warnings (a ++ b) = (warnings a ++ warnings b)%list.
Proof.
  induction a as [|ev a IH]; [reflexivity|].
  destruct ev; cbn; rewrite IH; reflexivity.
Qed.

Lemma loads_app (a b : list event) :
  loads (a ++ b) = (loads a ++ loads b)%list.
Proof.
  induction a as [|ev a IH]; [reflexivity|].
  destruct ev; cbn; rewrite IH; reflexivity.
Qed.

Lemma shown_quiet (h : list message) :
  posted (map shown h) = [] /\ timeouts (map shown h) = []
  /\ rows (map shown h) = [] /\ warnings (map shown h) = []
  /\ existsb is_log_event (map shown h) = false
  /\ loads (map shown h) = [].
Proof.
  induction h as [|m h (Hp & Ht & Hr & Hw & Hl & Hf)]; [cbn; auto 10|].
  cbn [map]. unfold shown at 1 3 5 7 9 11.
  destruct (String.eqb (role m) "user"); cbn; auto 10.
Qed.

End TraceReaders.

Ltac read_trace :=
  repeat (rewrite ?posted_app, ?timeouts_app, ?rows_app, ?warnings_app,
            ?loads_app, ?existsb_app; cbn [posted timeouts rows warnings loads
            existsb is_log_event app orb]).

Lemma turn_trace_spec (w : world) (key p : string) (k : json) (cv : string)
    (s : session_state) :
  let t := turn_trace w key p k cv s in
  let l := log_trace w (session_id_in w s) (text_input w) (reply_of w)
             (elapsed_ms w) (agent_in s) in
  posted t = [assemble p k cv (history_of s) (text_input w)]
  /\ timeouts t = [60%Z]
  /\ rows t = rows l /\ warnings t = warnings l
  /\ loads t = context_files.
Proof.
  intros t l. subst t l. unfold turn_trace, opening, post_event.
  destruct (cv_trace_quiet w) as (Hp & Ht & Hr & Hw & _ & Hf).
  destruct (shown_quiet (history_of (exchanged w s)))
    as (Sp & St & Sr & Sw & _ & Sf).
  destruct (log_trace_spec w (session_id_in w s) (text_input w) (reply_of w)
              (elapsed_ms w) (agent_in s)) as (Lp & Lt & _ & Lf & _).
  read_trace.
  rewrite Hp, Ht, Hr, Hw, Hf, Sp, St, Sr, Sw, Sf, Lp, Lt, Lf.
  rewrite !app_nil_r. auto 10.
Qed.

Lemma idle_trace_quiet (w : world) (s : session_state) :
  quiet (idle_trace w s) /\ loads (idle_trace w s) = context_files.
Proof.
  unfold quiet, idle_trace, opening.
  destruct (cv_trace_quiet w) as (Hp & Ht & Hr & Hw & Hl & Hf).
  destruct (shown_quiet (history_of s)) as (Sp & St & Sr & Sw & Sl & Sf).
  read_trace.
  rewrite Hp, Ht, Hr, Hw, Hl, Hf, Sp, St, Sr, Sw, Sl, Sf.
  auto 10.
Qed.

Lemma fatal_trace_quiet (w : world) :
  quiet (fatal_trace w)
  /\ exists n, loads (fatal_trace w) = firstn n context_files.
Proof.
  unfold quiet, fatal_trace.
  destruct (cv_trace_quiet w) as (Hp & Ht & Hr & Hw & Hl & Hf).
  destruct (prompt_txt w); [destruct (knowledge_json w)|]; read_trace;
    rewrite ?Hp, ?Ht, ?Hr, ?Hw, ?Hl, ?Hf; repeat split.
  - exists 3. reflexivity.
  - exists 2. reflexivity.
  - exists 1. reflexivity.
Qed.

(** *** One run of the script, and a session of runs *)

Lemma script_turn (w : world) (key p : string) (k : json) (cv : string)
    (s : session_state) :
  ready w key p k cv -> PyStr.truthy (text_input w) = true ->
  script w s
  = (Ok tt, exchanged w s, LoadDotenv ".env" :: turn_trace w key p k cv s).
Proof.
  intros (Hkey & Hp & Hk & Hcv) Hu. unfold script, bind, lift, emit.
  rewrite Hkey, (main_turn w key p k cv s Hp Hk Hcv Hu). reflexivity.
Qed.

Lemma script_idle (w : world) (key p : string) (k : json) (cv : string)
    (s : session_state) :
  ready w key p k cv -> PyStr.truthy (text_input w) = false ->
  script w s = (Ok tt, started w s, LoadDotenv ".env" :: idle_trace w s).
Proof.
  intros (Hkey & Hp & Hk & Hcv) Hu. unfold script, bind, lift, emit.
  rewrite Hkey, (main_idle w key p k cv s Hp Hk Hcv Hu). reflexivity.
Qed.

Lemma script_fatal (w : world) (key : string) (s : session_state) (e : exn) :
  OPENAI_API_KEY w = Ok key -> load_failure w = Some e ->
  script w s = (Raise e, started w s, LoadDotenv ".env" :: fatal_trace w).
Proof.
  intros Hkey He. unfold script, bind, lift, emit.
  rewrite Hkey, (main_fatal w key s e He). reflexivity.
Qed.

Lemma script_no_key (w : world) (s : session_state) (e : exn) :
  OPENAI_API_KEY w = Raise e ->
  script w s = (Raise e, s, [LoadDotenv ".env"]).
Proof.
  intros Hkey. unfold script, bind, lift, emit. rewrite Hkey. reflexivity.
Qed.

(** Reading the trace of a run past the look-up of [.env]. *)
Ltac unboot :=
  cbn [fst snd];
  cbn [posted timeouts rows warnings loads displayed requests sheet_calls
       existsb is_log_event orb].

Lemma load_failure_None (w : world) :
  load_failure w = None ->
  exists p k cv,
    prompt_txt w = Ok p /\ knowledge_json w = Ok k /\ reference_text w = Ok cv.
Proof.
  unfold load_failure.
  destruct (prompt_txt w) as [p|]; [|discriminate].
  destruct (knowledge_json w) as [k|]; [|discriminate].
  destruct (reference_text w) as [cv|]; [|discriminate].
  intros _. exists p, k, cv. repeat split.
Qed.

(** Every run either makes one exchange, or leaves the history as it
    was and stays away from the endpoint and the log store. *)
Lemma script_cases (w : world) (s : session_state) :
  (exists key p k cv,
      ready w key p k cv /\ PyStr.truthy (text_input w) = true
      /\ script w s
         = (Ok tt, exchanged w s,
            LoadDotenv ".env" :: turn_trace w key p k cv s))
  \/ (PyStr.truthy (text_input w) = false \/ outcome w s <> Ok tt)
     /\ history_of (run w s) = history_of s
     /\ quiet (trace w s)
     /\ exists n, loads (trace w s) = firstn n context_files.
Proof.
  unfold run, trace, outcome.
  destruct (OPENAI_API_KEY w) as [key|e] eqn:Hkey.
  - destruct (load_failure w) as [e|] eqn:Hload.
    + right. rewrite (script_fatal w key s e Hkey Hload). unboot.
      destruct (fatal_trace_quiet w) as (Hq & Hl).
      split; [right; discriminate|]. split; [reflexivity|]. split; assumption.
    + destruct (load_failure_None w Hload) as (p & k & cv & Hp & Hk & Hcv).
      assert (Hr : ready w key p k cv) by (unfold ready; auto).
      destruct (PyStr.truthy (text_input w)) eqn:Hu.
      * left. exists key, p, k, cv. repeat split; auto.
        apply script_turn; auto.
      * right. rewrite (script_idle w key p k cv s Hr Hu). unboot.
        destruct (idle_trace_quiet w s) as (Hq & Hl).
        split; [left; reflexivity|]. split; [reflexivity|].
        split; [exact Hq|]. exists 3. exact Hl.
  - right. rewrite (script_no_key w s e Hkey). unboot.
    split; [right; discriminate|]. split; [reflexivity|].
    split; [unfold quiet; auto 10|]. exists 0. reflexivity.
Qed.

Lemma history_of_exchanged (w : world) (s : session_state) :
  history_of (exchanged w s)
  = (history_of s
     ++ [user_turn (text_input w); assistant_turn (reply_of w)])%list.
Proof. cbn. rewrite <- app_assoc. reflexivity. Qed.

(** Past turns are never removed nor reordered: a run appends nothing,
    or one user turn followed by one assistant turn. *)
Lemma run_history (w : world) (s : session_state) :
  history_of (run w s) = history_of s
  \/ history_of (run w s)
     = (history_of s
        ++ [user_turn (text_input w); assistant_turn (reply_of w)])%list.
Proof.
  destruct (script_cases w s)
    as [(key & p & k & cv & _ & _ & Hrun)|(_ & Hh & _)]; [right|left; exact Hh].
  unfold run. rewrite Hrun. apply history_of_exchanged.
Qed.

Lemma session_history (ws : list world) (s : session_state) :
  exists later, history_of (session ws s) = (history_of s ++ later)%list.
Proof.
  revert s. induction ws as [|w ws IH]; intros s.
  - exists []. cbn. rewrite app_nil_r. reflexivity.
  - cbn [session]. destruct (IH (run w s)) as (later & Hl).
    rewrite Hl. destruct (run_history w s) as [H|H]; rewrite H.
    + eauto.
    + rewrite <- app_assoc. eauto.
Qed.

Lemma turn_history (w : world) (key p : string) (k : json) (cv : string)
    (s : session_state) :
  ready w key p k cv -> PyStr.truthy (text_input w) = true ->
  history_of (run w s)
  = (history_of s
     ++ [user_turn (text_input w); assistant_turn (reply_of w)])%list.
Proof.
  intros Hr Hu. unfold run. rewrite (script_turn w key p k cv s Hr Hu).
  apply history_of_exchanged.
Qed.

Lemma reply_of_failure (w : world) (e : exn) :
  completion w = Raise e ->
  reply_of w = JStr ("Error consultando el modelo: " ++ exn_text e).
Proof. intros He. unfold reply_of. rewrite He. reflexivity. Qed.

Lemma run_even (w : world) (s : session_state) :
  Nat.Even (length (history_of s)) ->
  Nat.Even (length (history_of (run w s))).
Proof.
  intros (n & Hn). destruct (run_history w s) as [H|H]; rewrite H.
  - exists n. exact Hn.
  - exists (S n). rewrite length_app. cbn [length]. lia.
Qed.

Lemma session_even (ws : list world) (s : session_state) :
  Nat.Even (length (history_of s)) ->
  Nat.Even (length (history_of (session ws s))).
Proof.
  revert s. induction ws as [|w ws IH]; intros s Hs; [exact Hs|].
  cbn [session]. apply IH, run_even, Hs.
Qed.

Example acme_ready :
  ready Sample.acme "sk-test" "Eres un asistente." Sample.knowledge
    "Worked at Acme Corp.".
Proof. repeat split. Qed.

(** The end-to-end scenario of the specification: what is sent, and what
    the history holds afterwards. *)
Example acme_run :
  posted (trace Sample.acme fresh)
  = [[mkMessage "system" (JStr Sample.acme_system);
      mkMessage "user" (JStr "What is your experience?")]]
  /\ history_of (run Sample.acme fresh)
     = [mkMessage "user" (JStr "What is your experience?");
        mkMessage "assistant" (JStr Sample.acme_reply)].
Proof. split; reflexivity. Qed.

Example http500_run :
  history_of (run Sample.http500 fresh)
  = [mkMessage "user" (JStr "What is your experience?");
     mkMessage "assistant"
       (JStr ("Error consultando el modelo: 500 Server Error: "
              ++ "Internal Server Error for url: "
              ++ "https://api.openai.com/v1/chat/completions"))].
Proof. reflexivity. Qed.

(* ================================================================== *)
(** ** Properties of the pipeline *)
(* ================================================================== *)

(** C1. In a run that reaches the endpoint, the message sequence sent is
    exactly one system message, then every turn of the history in its
    stored order, then the new question as a user message.  The content
    of the system message is the instruction prompt, the knowledge record
    printed by [json.dumps(indent=2)], the reference text and the closing
    instruction, in this order, between fixed labels.  The sequence is a
    function of the three sources, the history and the question alone:
    two runs that agree on them send the same sequence. *)
Theorem assembled_messages (w : world) (key p : string) (k : json)
    (cv : string) (s : session_state) :
  ready w key p k cv -> PyStr.truthy (text_input w) = true ->
  posted (trace w s)
  = [ (mkMessage "system"
         (JStr (p ++ PyStr.nl ++ PyStr.nl
                ++ "Información de knowledge.json:" ++ PyStr.nl
                ++ Json.dumps k ++ PyStr.nl ++ PyStr.nl
                ++ "Extracto de CV:" ++ PyStr.nl ++ cv ++ PyStr.nl ++ PyStr.nl
                ++ "Usa esta información para responder de manera precisa, clara y profesional."))
       :: history_of s ++ [mkMessage "user" (JStr (text_input w))])%list ]
  /\ forall (w' : world) (key' : string) (s' : session_state),
       ready w' key' p k cv -> text_input w' = text_input w ->
       history_of s' = history_of s ->
       posted (trace w' s') = posted (trace w s).
Proof.
  intros Hr Hu.
  assert (Hposted : forall w0 key0 s0,
             ready w0 key0 p k cv -> PyStr.truthy (text_input w0) = true ->
             posted (trace w0 s0)
             = [assemble p k cv (history_of s0) (text_input w0)]).
  { intros w0 key0 s0 Hr0 Hu0. unfold trace.
    rewrite (script_turn w0 key0 p k cv s0 Hr0 Hu0). unboot.
    apply turn_trace_spec. }
  split.
  - rewrite (Hposted w key s Hr Hu). reflexivity.
  - intros w' key' s' Hr' Hin Hh.
    rewrite (Hposted w key s Hr Hu), (Hposted w' key' s' Hr'), Hin, Hh;
      [reflexivity|]. rewrite Hin. exact Hu.
Qed.

Lemma assembled_messages_witness :
  posted (trace Sample.acme fresh)
  = [[mkMessage "system" (JStr Sample.acme_system);
      mkMessage "user" (JStr "What is your experience?")]].
Proof.
  apply (assembled_messages Sample.acme "sk-test" "Eres un asistente."
           Sample.knowledge "Worked at Acme Corp." fresh).
  - repeat split.
  - reflexivity.
Defined.

(** C2. In every session the history has an even length before and
    after each run of the script.  A run appends nothing, or exactly one
    user turn followed by one assistant turn, a completed exchange always
    the latter; what was in the history stays, in its order. *)
Theorem history_pairing (ws : list world) (w : world) :
  let s := session ws fresh in
  Nat.Even (length (history_of s))
  /\ Nat.Even (length (history_of (run w s)))
  /\ (history_of (run w s) = history_of s
      \/ history_of (run w s)
         = (history_of s
            ++ [mkMessage "user" (JStr (text_input w));
                mkMessage "assistant" (reply_of w)])%list)
  /\ (forall key p k cv,
         ready w key p k cv -> PyStr.truthy (text_input w) = true ->
         history_of (run w s)
         = (history_of s
            ++ [mkMessage "user" (JStr (text_input w));
                mkMessage "assistant" (reply_of w)])%list).
Proof.
  intros s.
  assert (Hs : Nat.Even (length (history_of s))).
  { apply session_even. exists 0. reflexivity. }
  split; [exact Hs|]. split; [apply run_even, Hs|].
  split; [apply run_history|].
  intros key p k cv Hr Hu. exact (turn_history w key p k cv s Hr Hu).
Qed.

(** C3. When the completion call raises, the run still ends normally and
    appends exactly the user turn and one assistant turn whose content is
    the text ["Error consultando el modelo: "] followed by the text of
    the exception.  The session stays usable: the next question is sent
    with the grown history and appends its own pair of turns, with the
    endpoint's reply when that call succeeds. *)
Theorem completion_failure_turn (w : world) (key p : string) (k : json)
    (cv : string) (s : session_state) (e : exn) :
  ready w key p k cv -> PyStr.truthy (text_input w) = true ->
  completion w = Raise e ->
  outcome w s = Ok tt
  /\ history_of (run w s)
     = (history_of s
        ++ [mkMessage "user" (JStr (text_input w));
            mkMessage "assistant"
              (JStr ("Error consultando el modelo: " ++ exn_text e))])%list
  /\ forall (w2 : world) (key2 p2 : string) (k2 : json) (cv2 : string),
       ready w2 key2 p2 k2 cv2 -> PyStr.truthy (text_input w2) = true ->
       outcome w2 (run w s) = Ok tt
       /\ posted (trace w2 (run w s))
          = [assemble p2 k2 cv2 (history_of (run w s)) (text_input w2)]
       /\ history_of (run w2 (run w s))
          = (history_of (run w s)
             ++ [mkMessage "user" (JStr (text_input w2));
                 mkMessage "assistant" (reply_of w2)])%list
       /\ forall v, completion w2 = Ok v -> reply_of w2 = v.
Proof.
  intros Hr Hu He. unfold outcome, run, trace.
  rewrite (script_turn w key p k cv s Hr Hu). unboot.
  split; [reflexivity|]. split.
  - rewrite history_of_exchanged, (reply_of_failure w e He). reflexivity.
  - intros w2 key2 p2 k2 cv2 Hr2 Hu2.
    rewrite (script_turn w2 key2 p2 k2 cv2 _ Hr2 Hu2). unboot.
    split; [reflexivity|]. split; [apply turn_trace_spec|].
    split; [apply history_of_exchanged|].
    intros v Hv. unfold reply_of. rewrite Hv. reflexivity.
Qed.

Lemma completion_failure_turn_witness :
  outcome Sample.http500 fresh = Ok tt
  /\ history_of (run Sample.http500 fresh)
     = [mkMessage "user" (JStr "What is your experience?");
        mkMessage "assistant"
          (JStr ("Error consultando el modelo: 500 Server Error: "
                 ++ "Internal Server Error for url: "
                 ++ "https://api.openai.com/v1/chat/completions"))].
Proof.
  destruct (completion_failure_turn Sample.http500 "sk-test"
              "Eres un asistente." Sample.knowledge "Worked at Acme Corp."
              fresh
              (mkExn "HTTPError"
                 ("500 Server Error: Internal Server Error for url: "
                  ++ "https://api.openai.com/v1/chat/completions")))
    as (Hout & Hhist & _).
  - repeat split.
  - reflexivity.
  - reflexivity.
  - split; [exact Hout|exact Hhist].
Defined.

(** *** The logging path *)

(** [log_interaction] never raises and leaves the session state alone,
    whatever the state of the log store. *)
Lemma log_interaction_total (w : world) (user_input : string)
    (assistant_reply : json) (duration_ms : Z) (agent : string)
    (s : session_state) :
  exists t,
    log_interaction w user_input assistant_reply duration_ms agent s
    = (Ok tt, s, t)
    /\ posted t = []
    /\ forall row, In row (rows t) ->
         exists sid, session_id s = Some sid
           /\ row = [ JStr (utcnow w); JStr sid; JStr user_input;
                      assistant_reply; JInt duration_ms; JStr agent ].
Proof.
  destruct s as [[sid|] h ua].
  - eexists. split; [apply (log_interaction_run _ _ _ _ _ _ sid); reflexivity|].
    destruct (log_trace_spec w sid user_input assistant_reply duration_ms agent)
      as (Hp & _ & _ & _ & Hrow & _).
    split; [exact Hp|]. intros row Hin. exists sid. split; [reflexivity|].
    apply Hrow, Hin.
  - unfold log_interaction, get_gsheets_client, read_session_id,
      try_except, bind, get.
    destruct (getenv w "GOOGLE_CREDENTIALS_JSON") as [[|c g]|]; cbn;
      try solve [eexists; repeat split; intros ? []].
    oracle (json_loads_creds (gsheets w));
      [eexists; repeat split; intros ? []|].
    oracle (from_service_account_info (gsheets w));
      [eexists; repeat split; intros ? []|].
    oracle (authorize (gsheets w)); [eexists; repeat split; intros ? []|].
    oracle (open_spreadsheet (gsheets w));
      [eexists; repeat split; intros ? []|].
    oracle (worksheet (gsheets w)); eexists; repeat split; intros ? [].
Qed.

Lemma completion_post (w w' : world) :
  post w = post w' -> completion w = completion w'.
Proof.
  intros H. unfold completion, call_llm_api, bind, lift, emit, raise_for_status.
  rewrite <- H. destruct (post w) as [r|e]; [|reflexivity].
  destruct ((400 <=? status_code r)%Z && (status_code r <? 500)%Z);
    [reflexivity|].
  destruct ((500 <=? status_code r)%Z && (status_code r <? 600)%Z);
    [reflexivity|].
  cbn. destruct (json_body r) as [b|e]; [|reflexivity].
  destruct (Py.getitem_str b "choices") as [c|e]; [|reflexivity].
  destruct (Py.getitem_0 c) as [f|e]; [|reflexivity].
  destruct (Py.getitem_str f "message") as [m|e]; [|reflexivity].
  destruct (Py.getitem_str m "content"); reflexivity.
Qed.

Lemma agree_run (w w' : world) (s : session_state) :
  agree_outside_logging w w' ->
  outcome w s = outcome w' s /\ run w s = run w' s.
Proof.
  intros (Hkey & Hid & Hp & Hk & Hcv & Hin & Hpost).
  assert (Ekey : OPENAI_API_KEY w = OPENAI_API_KEY w')
    by (unfold OPENAI_API_KEY; rewrite Hkey; reflexivity).
  assert (Eref : reference_text w = reference_text w')
    by (unfold reference_text, load_cv; rewrite Hcv; reflexivity).
  assert (Eload : load_failure w = load_failure w')
    by (unfold load_failure; rewrite Hp, Hk, Eref; reflexivity).
  assert (Estart : started w s = started w' s)
    by (unfold started, session_id_in; rewrite Hid; reflexivity).
  assert (Eexch : exchanged w s = exchanged w' s)
    by (unfold exchanged, session_id_in, reply_of;
        rewrite Hid, Hin, (completion_post w w' Hpost); reflexivity).
  unfold outcome, run.
  destruct (OPENAI_API_KEY w) as [key|e] eqn:Hw.
  - destruct (load_failure w) as [e|] eqn:Hload.
    + rewrite (script_fatal w key s e Hw Hload).
      rewrite (script_fatal w' key s e); [|congruence|congruence].
      unboot. auto.
    + destruct (load_failure_None w Hload) as (p & k & cv & Hp1 & Hk1 & Hcv1).
      assert (Hr : ready w key p k cv) by (unfold ready; auto).
      assert (Hr' : ready w' key p k cv)
        by (unfold ready; repeat split; congruence).
      destruct (PyStr.truthy (text_input w)) eqn:Hu.
      * rewrite (script_turn w key p k cv s Hr Hu).
        rewrite (script_turn w' key p k cv s Hr'); [|congruence].
        unboot. auto.
      * rewrite (script_idle w key p k cv s Hr Hu).
        rewrite (script_idle w' key p k cv s Hr'); [|congruence].
        unboot. auto.
  - rewrite (script_no_key w s e Hw).
    rewrite (script_no_key w' s e); [|congruence]. auto.
Qed.

(** C4. Whatever fails on the logging path (no credentials, credentials
    refused, spreadsheet or worksheet missing, append refused),
    [log_interaction] returns normally and leaves the session state as it
    was; the run has the outcome and the session state, history included,
    of a run in which logging works; and the failure shows as exactly one
    [st.error] text. *)
Theorem logging_failure_isolated (w w' : world) (s : session_state) :
  agree_outside_logging w w' ->
  (forall user_input assistant_reply duration_ms agent,
      fst (log_interaction w user_input assistant_reply duration_ms agent s)
      = (Ok tt, s))
  /\ outcome w s = outcome w' s
  /\ run w s = run w' s
  /\ history_of (run w s) = history_of (run w' s)
  /\ (forall key p k cv,
         ready w key p k cv -> PyStr.truthy (text_input w) = true ->
         outcome w s = Ok tt
         /\ if logging_works w then warnings (trace w s) = []
            else exists text, warnings (trace w s) = [text]).
Proof.
  intros Hagree. split.
  { intros ui ar d ua.
    destruct (log_interaction_total w ui ar d ua s) as (t & Ht & _).
    rewrite Ht. reflexivity. }
  destruct (agree_run w w' s Hagree) as (Hout & Hrun).
  split; [exact Hout|]. split; [exact Hrun|].
  split; [rewrite Hrun; reflexivity|].
  intros key p k cv Hr Hu. unfold outcome, trace.
  rewrite (script_turn w key p k cv s Hr Hu). unboot.
  split; [reflexivity|].
  destruct (turn_trace_spec w key p k cv s) as (_ & _ & _ & Hwarn & _).
  rewrite Hwarn.
  destruct (log_trace_spec w (session_id_in w s) (text_input w) (reply_of w)
              (elapsed_ms w) (agent_in s)) as (_ & _ & _ & _ & _ & Hlog).
  destruct (logging_works w); [apply Hlog|exact Hlog].
Qed.

Lemma logging_failure_isolated_witness :
  run Sample.acme_unlogged fresh = run Sample.acme_logged fresh
  /\ outcome Sample.acme_unlogged fresh = outcome Sample.acme_logged fresh.
Proof.
  destruct (logging_failure_isolated Sample.acme_unlogged Sample.acme_logged
              fresh) as (_ & Hout & Hrun & _).
  - repeat split.
  - split; [exact Hrun|exact Hout].
Defined.

Example unlogged_warning :
  logging_works Sample.acme_unlogged = false
  /\ warnings (trace Sample.acme_unlogged fresh)
     = ["No se pudo registrar en Google Sheets: <Response [200]>"]
  /\ rows (trace Sample.acme_unlogged fresh) = [].
Proof. repeat split. Qed.

(** *** The context bundle across the runs of a session *)

Lemma ready_loads (w : world) (key p : string) (k : json) (cv : string)
    (s : session_state) :
  ready w key p k cv -> loads (trace w s) = context_files.
Proof.
  intros Hr. unfold trace. destruct (PyStr.truthy (text_input w)) eqn:Hu.
  - rewrite (script_turn w key p k cv s Hr Hu). apply turn_trace_spec.
  - rewrite (script_idle w key p k cv s Hr Hu). apply idle_trace_quiet.
Qed.

Lemma run_loads (w : world) (s : session_state) :
  loads (trace w s) = sources_looked_up w.
Proof.
  unfold trace, sources_looked_up.
  destruct (OPENAI_API_KEY w) as [key|e] eqn:Hkey.
  - destruct (load_failure w) as [e|] eqn:Hload.
    + rewrite (script_fatal w key s e Hkey Hload). unboot.
      unfold fatal_trace. unfold load_failure in Hload.
      destruct (cv_trace_quiet w) as (_ & _ & _ & _ & _ & Hcv).
      destruct (prompt_txt w); [|reflexivity].
      destruct (knowledge_json w); [|reflexivity].
      cbn [loads]. rewrite Hcv. reflexivity.
    + destruct (load_failure_None w Hload) as (p & k & cv & Hp & Hk & Hcv).
      assert (Hr : ready w key p k cv) by (unfold ready; auto).
      pose proof (ready_loads w key p k cv s Hr) as Hl. unfold trace in Hl.
      rewrite Hl, Hp, Hk. reflexivity.
  - rewrite (script_no_key w s e Hkey). reflexivity.
Qed.

(** C5, as the code has it.  In every run of the script the sources are
    looked up anew, each at most once and in the order prompt, knowledge
    record, reference document: none of them when the API key is missing,
    those up to the first one that cannot be read when the prompt or the
    knowledge record cannot be read, all three otherwise, whether the run
    makes an exchange or not.  So a session reads the sources once for
    each of its runs, not once.  The system message of a turn is built
    from what the run of that turn read, and two turns whose runs read
    the same content are sent with the same system message. *)
Theorem context_loaded_per_run (ws : list world) (w w' : world)
    (key key' p : string) (k : json) (cv : string) (s s' : session_state) :
  loads (trace w s)
  = match OPENAI_API_KEY w with
    | Raise _ => []
    | Ok _ =>
        match prompt_txt w with
        | Raise _ => ["prompt.txt"]
        | Ok _ =>
            match knowledge_json w with
            | Raise _ => ["prompt.txt"; "knowledge.json"]
            | Ok _ => ["prompt.txt"; "knowledge.json"; "CV.pdf"]
            end
        end
    end
  /\ loads (session_trace ws s) = concat (map sources_looked_up ws)
  /\ (Forall (fun w0 => exists key0 p0 k0 cv0, ready w0 key0 p0 k0 cv0) ws ->
      loads (session_trace ws s)
      = concat (map (fun _ => ["prompt.txt"; "knowledge.json"; "CV.pdf"]) ws))
  /\ (ready w key p k cv -> ready w' key' p k cv ->
      PyStr.truthy (text_input w) = true ->
      PyStr.truthy (text_input w') = true ->
      loads (trace w s) = ["prompt.txt"; "knowledge.json"; "CV.pdf"]
      /\ map (@hd_error message) (posted (trace w s))
         = [Some (system_message p k cv)]
      /\ map (@hd_error message) (posted (trace w' s'))
         = [Some (system_message p k cv)]).
Proof.
  assert (Hsession : forall s0,
             loads (session_trace ws s0) = concat (map sources_looked_up ws)).
  { induction ws as [|w0 ws0 IH]; intros s0; [reflexivity|].
    cbn [session_trace map concat]. rewrite loads_app, IH, run_loads.
    reflexivity. }
  split; [exact (run_loads w s)|]. split; [apply Hsession|]. split.
  - intros Hws. rewrite Hsession. clear Hsession. f_equal.
    induction Hws as [|w0 ws0 (key0 & p0 & k0 & cv0 & Hr0) _ IH];
      [reflexivity|].
    cbn [map]. rewrite IH. f_equal.
    rewrite <- (run_loads w0 fresh). exact (ready_loads w0 key0 p0 k0 cv0 fresh Hr0).
  - intros Hr Hr' Hu Hu'.
    split; [exact (ready_loads w key p k cv s Hr)|].
    unfold trace.
    rewrite (script_turn w key p k cv s Hr Hu).
    rewrite (script_turn w' key' p k cv s' Hr' Hu'). unboot.
    destruct (turn_trace_spec w key p k cv s) as (-> & _).
    destruct (turn_trace_spec w' key' p k cv s') as (-> & _).
    split; reflexivity.
Qed.

Lemma context_loaded_per_run_witness :
  loads (session_trace
           [Sample.acme; More.no_key; More.no_knowledge; Sample.acme_logged]
           fresh)
  = ["prompt.txt"; "knowledge.json"; "CV.pdf";
     "prompt.txt"; "knowledge.json";
     "prompt.txt"; "knowledge.json"; "CV.pdf"].
Proof.
  apply (context_loaded_per_run
           [Sample.acme; More.no_key; More.no_knowledge; Sample.acme_logged]
           Sample.acme Sample.acme_logged "sk-test" "sk-test"
           "Eres un asistente." Sample.knowledge "Worked at Acme Corp."
           fresh fresh).
Defined.

(** C5 as stated fails: in a session of two turns between which
    [prompt.txt] was edited, the sources are read twice and the second
    turn is sent with another system message than the first. *)
Lemma context_reloaded_every_run :
  loads (session_trace [Sample.acme; Sample.acme_edited] fresh)
  = ["prompt.txt"; "knowledge.json"; "CV.pdf";
     "prompt.txt"; "knowledge.json"; "CV.pdf"]
  /\ map (@hd_error message)
       (posted (session_trace [Sample.acme; Sample.acme_edited] fresh))
     = [Some (system_message "Eres un asistente." Sample.knowledge
                "Worked at Acme Corp.");
        Some (system_message "Eres un pirata." Sample.knowledge
                "Worked at Acme Corp.")]
  /\ system_message "Eres un asistente." Sample.knowledge "Worked at Acme Corp."
     <> system_message "Eres un pirata." Sample.knowledge "Worked at Acme Corp.".
Proof.
  split; [reflexivity|]. split; [reflexivity|]. discriminate.
Qed.

(** *** The empty question *)

(** C6, as the code has it.  When the widget holds the empty string the
    run makes no exchange: nothing is sent to the endpoint, nothing is
    appended to the history, and the logging path is not entered. *)
Theorem empty_input_is_noop (w : world) (s : session_state) :
  text_input w = EmptyString ->
  history_of (run w s) = history_of s
  /\ posted (trace w s) = []
  /\ rows (trace w s) = []
  /\ existsb is_log_event (trace w s) = false.
Proof.
  intros Hin.
  destruct (script_cases w s)
    as [(key & p & k & cv & _ & Hu & _)|(_ & Hh & (Hp & _ & Hr & _ & Hl) & _)].
  - rewrite Hin in Hu. discriminate.
  - auto.
Qed.

Lemma empty_input_is_noop_witness :
  history_of (run Sample.idle fresh) = []
  /\ posted (trace Sample.idle fresh) = []
  /\ rows (trace Sample.idle fresh) = []
  /\ existsb is_log_event (trace Sample.idle fresh) = false.
Proof.
  apply (empty_input_is_noop Sample.idle fresh). reflexivity.
Defined.

(** C6 as stated fails for a blank question: a single space is a
    non-empty [str], so the run sends it to the endpoint, appends both
    turns and enters the logging path. *)
Lemma blank_input_is_processed :
  PyStr.strip (text_input Sample.blank) = EmptyString
  /\ history_of (run Sample.blank fresh)
     = [mkMessage "user" (JStr " "); mkMessage "assistant" (JStr "Hola")]
  /\ length (posted (trace Sample.blank fresh)) = 1
  /\ existsb is_log_event (trace Sample.blank fresh) = true.
Proof. repeat split. Qed.

(** *** The completion gateway *)

Ltac absurd_path := cbn; try (split; discriminate).

Lemma content_path_reply_at (body : json) (v : json) :
  content_path body = Ok v <-> reply_at body = Some v.
Proof.
  unfold content_path, reply_at.
  destruct body as [| | | | |items|top]; absurd_path.
  destruct (Py.lookup "choices" top) as [c|]; absurd_path.
  destruct c as [| | | |str|[|f rest]|fields]; absurd_path.
  - destruct (PyStr.first_char str); absurd_path.
  - destruct f as [| | | | |items|choice]; absurd_path.
    destruct (Py.lookup "message" choice) as [m|]; absurd_path.
    destruct m as [| | | | |items|msg]; absurd_path.
    destruct (Py.lookup "content" msg); split; congruence.
Qed.

Lemma completion_spec (w : world) :
  match post w with
  | Raise e => completion w = Raise e
  | Ok r =>
      if http_error r
      then exists e, completion w = Raise e /\ exn_class e = "HTTPError"
      else
        match json_body r with
        | Raise e => completion w = Raise e
        | Ok body => completion w = content_path body
        end
  end.
Proof.
  unfold completion, call_llm_api, bind, lift, emit, raise_for_status,
    http_error, content_path.
  destruct (post w) as [r|e]; [|reflexivity].
  destruct ((400 <=? status_code r)%Z) eqn:H400;
    destruct ((status_code r <? 500)%Z) eqn:H500;
    destruct ((status_code r <? 600)%Z) eqn:H600; cbn;
    try (eexists; split; reflexivity); try lia;
    destruct ((500 <=? status_code r)%Z) eqn:H5; cbn;
    try (eexists; split; reflexivity); try lia;
    (destruct (json_body r) as [body|e]; [|reflexivity]);
    (destruct (Py.getitem_str body "choices") as [c|e]; [|reflexivity]);
    (destruct (Py.getitem_0 c) as [f|e]; [|reflexivity]);
    (destruct (Py.getitem_str f "message") as [m|e]; [|reflexivity]);
    destruct (Py.getitem_str m "content"); reflexivity.
Qed.

Lemma completion_http_error (w : world) (r : response) :
  post w = Ok r ->
  if ((400 <=? status_code r) && (status_code r <? 500))%Z
  then completion w
       = Raise (mkExn "HTTPError"
                  (PyStr.of_Z (status_code r) ++ " Client Error: " ++ reason r
                   ++ " for url: " ++ url r))
  else if ((500 <=? status_code r) && (status_code r <? 600))%Z
  then completion w
       = Raise (mkExn "HTTPError"
                  (PyStr.of_Z (status_code r) ++ " Server Error: " ++ reason r
                   ++ " for url: " ++ url r))
  else http_error r = false.
Proof.
  intros Hpost.
  unfold completion, call_llm_api, bind, lift, emit, raise_for_status,
    http_error.
  rewrite Hpost.
  destruct ((400 <=? status_code r)%Z) eqn:H400;
    destruct ((status_code r <? 500)%Z) eqn:H500;
    destruct ((500 <=? status_code r)%Z) eqn:H5;
    destruct ((status_code r <? 600)%Z) eqn:H600;
    cbn [andb]; try reflexivity; lia.
Qed.

(** The exceptions of the subscript chain: a [KeyError], an
    [IndexError] or a [TypeError], each with a text. *)
Lemma content_path_raises (body : json) (e : exn) :
  content_path body = Raise e ->
  In (exn_class e) ["KeyError"; "IndexError"; "TypeError"]
  /\ exn_text e <> EmptyString.
Proof.
  unfold content_path.
  assert (Hstr : forall v k e0,
             Py.getitem_str v k = Raise e0 ->
             In (exn_class e0) ["KeyError"; "IndexError"; "TypeError"]
             /\ exn_text e0 <> EmptyString).
  { intros v k e0 H. destruct v as [| | | | |items|fields]; cbn in H;
      try (injection H as <-; cbn; split; [tauto|discriminate]).
    destruct (Py.lookup k fields); [discriminate|].
    injection H as <-. cbn. split; [tauto|discriminate]. }
  assert (Hidx : forall v e0,
             Py.getitem_0 v = Raise e0 ->
             In (exn_class e0) ["KeyError"; "IndexError"; "TypeError"]
             /\ exn_text e0 <> EmptyString).
  { intros v e0 H. destruct v as [| | | |str|[|x items]|fields]; cbn in H;
      try discriminate;
      try (injection H as <-; cbn; split; [tauto|discriminate]).
    destruct (PyStr.first_char str); [discriminate|].
    injection H as <-. cbn. split; [tauto|discriminate]. }
  destruct (Py.getitem_str body "choices") as [c|e1] eqn:H1;
    [|intros H; injection H as <-; exact (Hstr _ _ _ H1)].
  destruct (Py.getitem_0 c) as [f|e2] eqn:H2;
    [|intros H; injection H as <-; exact (Hidx _ _ H2)].
  destruct (Py.getitem_str f "message") as [m|e3] eqn:H3;
    [|intros H; injection H as <-; exact (Hstr _ _ _ H3)].
  intros H. exact (Hstr _ _ _ H).
Qed.

(** C7, as the code has it.  [call_llm_api] sends one request, with the
    timeout 60, and leaves the session state alone.  Each failure reaches
    the caller as the one exception of the step that failed, with its
    cause: an exception of [requests.post] (transport failure, timeout)
    unchanged; for a status from 400 to 499 an [HTTPError] with the text
    [<status> Client Error: <reason> for url: <url>], from 500 to 599
    with [Server Error] in its place; otherwise, for a body that is not
    JSON, the exception of [response.json()] unchanged, and for a body
    that has no value at [choices[0].message.content] a [KeyError], an
    [IndexError] or a [TypeError] with a text.  In every other case the
    value found at [choices[0].message.content] is returned, whatever the
    status and whatever the type of the value. *)
Theorem gateway_outcomes (w : world) (key : string) (msgs : list message)
    (s : session_state) :
  exists r,
    call_llm_api w key msgs s
    = (r, s,
       [HttpPost
          (getenv_default w "LLM_API_URL"
             "https://api.openai.com/v1/chat/completions")
          [("Authorization", "Bearer " ++ key);
           ("Content-Type", "application/json")]
          (getenv_default w "LLM_MODEL" "gpt-4o-mini") msgs 60%Z])
    /\ match post w with
       | Raise e => r = Raise e
       | Ok resp =>
           if ((400 <=? status_code resp) && (status_code resp <? 500))%Z
           then r = Raise (mkExn "HTTPError"
                             (PyStr.of_Z (status_code resp)
                              ++ " Client Error: " ++ reason resp
                              ++ " for url: " ++ url resp))
           else if ((500 <=? status_code resp) && (status_code resp <? 600))%Z
           then r = Raise (mkExn "HTTPError"
                             (PyStr.of_Z (status_code resp)
                              ++ " Server Error: " ++ reason resp
                              ++ " for url: " ++ url resp))
           else
             match json_body resp with
             | Raise e => r = Raise e
             | Ok body =>
                 match reply_at body with
                 | Some v => r = Ok v
                 | None =>
                     exists e,
                       r = Raise e
                       /\ In (exn_class e)
                            ["KeyError"; "IndexError"; "TypeError"]
                       /\ exn_text e <> EmptyString
                 end
             end
       end.
Proof.
  exists (completion w). split; [apply call_llm_api_run|].
  pose proof (completion_spec w) as H.
  destruct (post w) as [resp|e] eqn:Hpost; [|exact H].
  pose proof (completion_http_error w resp Hpost) as Hstatus.
  destruct ((400 <=? status_code resp) && (status_code resp <? 500))%Z;
    [exact Hstatus|].
  destruct ((500 <=? status_code resp) && (status_code resp <? 600))%Z;
    [exact Hstatus|].
  rewrite Hstatus in H.
  destruct (json_body resp) as [body|e]; [|exact H].
  rewrite H. destruct (reply_at body) as [v|] eqn:Hv.
  - apply content_path_reply_at, Hv.
  - destruct (content_path body) as [v|e] eqn:Hc.
    + apply content_path_reply_at in Hc. congruence.
    + exists e. split; [reflexivity|]. exact (content_path_raises body e Hc).
Qed.

Example gateway_http500 :
  fst (fst (call_llm_api Sample.http500 "sk-test" [] fresh))
  = Raise (mkExn "HTTPError"
             ("500 Server Error: Internal Server Error for url: "
              ++ "https://api.openai.com/v1/chat/completions")).
Proof. reflexivity. Qed.

(** C7 as stated fails in two ways: a status outside 200..299 that is
    not in 400..599 is not an error for [raise_for_status], so a reply
    that comes with HTTP 300 is returned; and a [content] that is not a
    string ([null] here) is returned as it is. *)
Lemma non_2xx_reply_accepted :
  post Sample.http300
  = Ok (mkResponse 300 "Multiple Choices"
          "https://api.openai.com/v1/chat/completions"
          (Ok (Sample.reply_body (JStr "Buenos días"))))
  /\ fst (fst (call_llm_api Sample.http300 "sk-test" [] fresh))
     = Ok (JStr "Buenos días")
  /\ fst (fst (call_llm_api Sample.null_content "sk-test" [] fresh))
     = Ok JNull.
Proof. repeat split. Qed.

(** *** The reference document *)

Lemma append_assoc (a b c : string) : (a ++ b) ++ c = a ++ b ++ c.
Proof. induction a as [|x a IH]; cbn; [reflexivity|]. rewrite IH. reflexivity. Qed.

Lemma append_empty (a : string) : a ++ EmptyString = a.
Proof. induction a as [|x a IH]; cbn; [reflexivity|]. rewrite IH. reflexivity. Qed.

Lemma cv_pages_lines (cv_text : string) (texts : list string) :
  cv_pages cv_text texts = cv_text ++ page_lines texts.
Proof.
  revert cv_text. induction texts as [|t rest IH]; intros cv_text; cbn.
  - rewrite append_empty. reflexivity.
  - destruct (PyStr.truthy t); rewrite IH; [|reflexivity].
    rewrite !append_assoc. reflexivity.
Qed.

Lemma ready_outcome (w : world) (key p : string) (k : json) (cv : string)
    (s : session_state) :
  ready w key p k cv -> outcome w s = Ok tt.
Proof.
  intros Hr. unfold outcome. destruct (PyStr.truthy (text_input w)) eqn:Hu.
  - rewrite (script_turn w key p k cv s Hr Hu). reflexivity.
  - rewrite (script_idle w key p k cv s Hr Hu). reflexivity.
Qed.

(** What [load_cv] returns in each state of [CV.pdf], with the loop
    written as [page_lines]. *)
Lemma load_cv_cases (w : world) (s : session_state) :
  match cv_pdf w with
  | CvAbsent =>
      load_cv w s = (Ok EmptyString, s, [PathExists "CV.pdf"])
      /\ forall key p k,
           OPENAI_API_KEY w = Ok key -> prompt_txt w = Ok p ->
           knowledge_json w = Ok k -> outcome w s = Ok tt
  | CvPages texts =>
      load_cv w s
      = (Ok (PyStr.strip (page_lines texts)), s,
         [PathExists "CV.pdf"; PdfOpen "CV.pdf"])
  | CvUnreadable e =>
      load_cv w s = (Raise e, s, [PathExists "CV.pdf"; PdfOpen "CV.pdf"])
  end.
Proof.
  destruct (cv_pdf w) as [|e|texts] eqn:Hcv.
  - split; [unfold load_cv; rewrite Hcv; reflexivity|].
    intros key p k Hkey Hp Hk.
    apply (ready_outcome w key p k EmptyString). repeat split; auto.
    unfold reference_text, load_cv. rewrite Hcv. reflexivity.
  - unfold load_cv. rewrite Hcv. reflexivity.
  - unfold load_cv. rewrite Hcv. cbn. rewrite cv_pages_lines. reflexivity.
Qed.

(** A page without text leaves no line of its own. *)
Example textless_page_leaves_no_line :
  reference_text Sample.three_pages = Ok ("Hola" ++ PyStr.nl ++ "Mundo").
Proof. reflexivity. Qed.

(** *** The logged row *)

(** C9. Every row that [log_interaction] hands to [append_row] has the
    six columns timestamp, session id, user input, assistant reply,
    duration and client identifier, in this order. *)
Theorem appended_row_columns (w : world) (user_input : string)
    (assistant_reply : json) (duration_ms : Z) (agent : string)
    (s : session_state) (row : list json) :
  In row
    (rows (snd (log_interaction w user_input assistant_reply duration_ms
                  agent s))) ->
  exists sid,
    session_id s = Some sid
    /\ row = [ JStr (utcnow w); JStr sid; JStr user_input; assistant_reply;
               JInt duration_ms; JStr agent ].
Proof.
  destruct (log_interaction_total w user_input assistant_reply duration_ms
              agent s) as (t & Ht & _ & Hrows).
  rewrite Ht. unboot. apply Hrows.
Qed.

Lemma appended_row_columns_witness :
  exists sid,
    session_id (run Sample.acme_logged fresh) = Some sid
    /\ [ JStr "2024-05-01T10:00:00.123456";
         JStr "0b9f2c1e-6d5a-4c3b-9a8f-7e6d5c4b3a21";
         JStr "What is your experience?"; JStr Sample.acme_reply;
         JInt 1234; JStr "streamlit-client" ]
       = [ JStr (utcnow Sample.acme_logged); JStr sid;
           JStr "What is your experience?"; JStr Sample.acme_reply;
           JInt 1234; JStr "streamlit-client" ].
Proof.
  apply (appended_row_columns Sample.acme_logged "What is your experience?"
           (JStr Sample.acme_reply) 1234%Z "streamlit-client"
           (run Sample.acme_logged fresh)).
  left. reflexivity.
Defined.

(** The row of a whole run: the columns hold the clock, the session id,
    the question, the reply that went into the history, the measured
    duration and the client identifier. *)
Example acme_logged_row :
  rows (trace Sample.acme_logged fresh)
  = [[ JStr "2024-05-01T10:00:00.123456";
       JStr "0b9f2c1e-6d5a-4c3b-9a8f-7e6d5c4b3a21";
       JStr "What is your experience?"; JStr Sample.acme_reply;
       JInt 1234; JStr "streamlit-client" ]]
  /\ warnings (trace Sample.acme_logged fresh) = [].
Proof. split; reflexivity. Qed.

(** *** An error reply in the later turns *)

(** C10. The error text of a failed completion call is an ordinary
    assistant turn of the history: in every later run of the session that
    reaches the endpoint, the message sequence sent contains it, with the
    assistant role and the same content. *)
Theorem error_reply_stays_in_context (w : world) (key p : string) (k : json)
    (cv : string) (s : session_state) (e : exn)
    (ws : list world) (w' : world) (key' p' : string) (k' : json)
    (cv' : string) :
  ready w key p k cv -> PyStr.truthy (text_input w) = true ->
  completion w = Raise e ->
  ready w' key' p' k' cv' -> PyStr.truthy (text_input w') = true ->
  exists msgs,
    posted (trace w' (session ws (run w s))) = [msgs]
    /\ In (mkMessage "assistant"
             (JStr ("Error consultando el modelo: " ++ exn_text e))) msgs.
Proof.
  intros Hr Hu He Hr' Hu'.
  pose proof (turn_history w key p k cv s Hr Hu) as Hhist.
  rewrite (reply_of_failure w e He) in Hhist.
  destruct (session_history ws (run w s)) as (later & Hlater).
  eexists. split.
  - unfold trace. rewrite (script_turn w' key' p' k' cv' _ Hr' Hu').
    unboot. apply turn_trace_spec.
  - unfold assemble. rewrite Hlater, Hhist.
    apply in_or_app. left. cbn [app]. right.
    apply in_or_app. left. apply in_or_app. right. right. left. reflexivity.
Qed.

Lemma error_reply_stays_in_context_witness :
  exists msgs,
    posted (trace Sample.acme_edited
              (session [Sample.acme] (run Sample.http500 fresh)))
    = [msgs]
    /\ In (mkMessage "assistant"
             (JStr ("Error consultando el modelo: "
                    ++ "500 Server Error: Internal Server Error for url: "
                    ++ "https://api.openai.com/v1/chat/completions"))) msgs.
Proof.
  apply (error_reply_stays_in_context Sample.http500 "sk-test"
           "Eres un asistente." Sample.knowledge "Worked at Acme Corp." fresh
           (mkExn "HTTPError"
              ("500 Server Error: Internal Server Error for url: "
               ++ "https://api.openai.com/v1/chat/completions"))
           [Sample.acme] Sample.acme_edited "sk-test" "Eres un pirata."
           Sample.knowledge "Worked at Acme Corp.").
  - repeat split.
  - reflexivity.
  - reflexivity.
  - repeat split.
  - reflexivity.
Defined.


(* ================================================================== *)
(** ** Further properties of the script *)
(* ================================================================== *)

(** *** Every run is one of four *)

Lemma script_run_case (w : world) (s : session_state) :
  run_case w s (script w s).
Proof.
  destruct (OPENAI_API_KEY w) as [key|e] eqn:Hkey.
  - destruct (load_failure w) as [e|] eqn:Hload.
    + rewrite (script_fatal w key s e Hkey Hload). eapply Fatal; eauto.
    + destruct (load_failure_None w Hload) as (p & k & cv & Hp & Hk & Hcv).
      assert (Hr : ready w key p k cv) by (unfold ready; auto).
      destruct (PyStr.truthy (text_input w)) eqn:Hu.
      * rewrite (script_turn w key p k cv s Hr Hu). eapply Turn; eauto.
      * rewrite (script_idle w key p k cv s Hr Hu). eapply Idle; eauto.
  - rewrite (script_no_key w s e Hkey). apply NoKey, Hkey.
Qed.

Section MoreReaders.

Lemma displayed_app (a b : list event) :
  displayed (a ++ b) = (displayed a ++ displayed b)%list.
Proof.
  induction a as [|ev a IH]; [reflexivity|].
  destruct ev; cbn; rewrite IH; reflexivity.
Qed.

Lemma requests_app (a b : list event) :
  requests (a ++ b) = (requests a ++ requests b)%list.
Proof.
  induction a as [|ev a IH]; [reflexivity|].
  destruct ev; cbn; rewrite IH; reflexivity.
Qed.

Lemma sheet_calls_app (a b : list event) :
  sheet_calls (a ++ b) = (sheet_calls a ++ sheet_calls b)%list.
Proof.
  induction a as [|ev a IH]; [reflexivity|].
  destruct ev; cbn; rewrite IH; reflexivity.
Qed.

Lemma shown_displayed (h : list message) :
  displayed (map shown h) = map (fun m => (label_of m, content m)) h
  /\ requests (map shown h) = [] /\ sheet_calls (map shown h) = [].
Proof.
  induction h as [|m h (Hd & Hr & Hs)]; [cbn; auto|].
  cbn [map]. unfold shown at 1 3 5, label_of at 1.
  destruct (String.eqb (role m) "user"); cbn; rewrite Hd; auto.
Qed.

Lemma cv_trace_silent (w : world) :
  displayed (cv_trace w) = [] /\ requests (cv_trace w) = []
  /\ sheet_calls (cv_trace w) = [].
Proof. unfold cv_trace, load_cv. destruct (cv_pdf w); cbn; auto. Qed.

End MoreReaders.

(** *** The steps of the logging path *)

Lemma get_gsheets_client_run (w : world) (s : session_state) :
  get_gsheets_client w s
  = (Ok (if client_available w then Some Client else None), s, client_steps w).
Proof.
  unfold get_gsheets_client, client_available, client_steps, try_except, bind.
  destruct (getenv w "GOOGLE_CREDENTIALS_JSON") as [[|c g]|]; cbn;
    try reflexivity.
  oracle (json_loads_creds (gsheets w)); [reflexivity|].
  oracle (from_service_account_info (gsheets w)); [reflexivity|].
  oracle (authorize (gsheets w)); reflexivity.
Qed.

Lemma log_trace_steps (w : world) (sid user_input : string)
    (assistant_reply : json) (duration_ms : Z) (agent : string) :
  log_trace w sid user_input assistant_reply duration_ms agent
  = (client_steps w
     ++ if client_available w
        then record_steps w
               (log_row w sid user_input assistant_reply duration_ms agent)
        else [])%list.
Proof.
  unfold log_trace, log_interaction, try_except. unfold bind at 1.
  rewrite get_gsheets_client_run.
  unfold client_available, client_steps, record_steps, read_session_id,
    bind, get.
  destruct (getenv w "GOOGLE_CREDENTIALS_JSON") as [[|c g]|]; cbn;
    try reflexivity.
  oracle (json_loads_creds (gsheets w)); [reflexivity|].
  oracle (from_service_account_info (gsheets w)); [reflexivity|].
  oracle (authorize (gsheets w)); [reflexivity|].
  oracle (open_spreadsheet (gsheets w)); [reflexivity|].
  oracle (worksheet (gsheets w)); [reflexivity|].
  oracle (append_row (gsheets w)); reflexivity.
Qed.

Lemma log_trace_silent (w : world) (sid user_input : string)
    (assistant_reply : json) (duration_ms : Z) (agent : string) :
  displayed (log_trace w sid user_input assistant_reply duration_ms agent) = []
  /\ requests (log_trace w sid user_input assistant_reply duration_ms agent)
     = [].
Proof.
  rewrite log_trace_steps.
  unfold client_available, client_steps, record_steps, no_credentials,
    connect_error, record_error.
  destruct (getenv w "GOOGLE_CREDENTIALS_JSON") as [[|c g]|]; cbn; auto.
  destruct (json_loads_creds (gsheets w)); cbn; auto.
  destruct (from_service_account_info (gsheets w)); cbn; auto.
  destruct (authorize (gsheets w)); cbn; auto.
  destruct (open_spreadsheet (gsheets w)); cbn; auto.
  destruct (worksheet (gsheets w)); cbn; auto.
  destruct (append_row (gsheets w)); cbn; auto.
Qed.

Ltac read_more :=
  repeat (rewrite ?displayed_app, ?requests_app, ?sheet_calls_app,
            ?posted_app, ?rows_app, ?loads_app;
          cbn [displayed requests sheet_calls posted rows loads app]).

Lemma fatal_trace_silent (w : world) :
  displayed (fatal_trace w) = [] /\ requests (fatal_trace w) = []
  /\ sheet_calls (fatal_trace w) = [].
Proof.
  unfold fatal_trace. destruct (cv_trace_silent w) as (Hd & Hr & Hs).
  destruct (prompt_txt w); [destruct (knowledge_json w)|]; cbn; auto.
Qed.

(** *** Runs that stop before the widget *)

(** X1. Without a non-empty [LLM_API_KEY] the script raises the
    [ValueError] of line 24 before [main] starts: such a run leaves the
    session state as it was and does nothing to the outside but the
    look-up of [.env] by [load_dotenv], however many of them follow each
    other. *)
Theorem missing_key_aborts (ws : list world) (s : session_state) :
  Forall (fun w => PyStr.truthy_opt (getenv w "LLM_API_KEY") = false) ws ->
  session ws s = s
  /\ session_trace ws s = map (fun _ => LoadDotenv ".env") ws
  /\ forall w, In w ws ->
       outcome w s
       = Raise (mkExn "ValueError"
                  "⚠️ No se encontró LLM_API_KEY en el archivo .env").
Proof.
  intros Hws.
  assert (Hone : forall w s0,
             PyStr.truthy_opt (getenv w "LLM_API_KEY") = false ->
             script w s0 = (Raise missing_api_key, s0, [LoadDotenv ".env"])).
  { intros w s0 Hw. apply script_no_key. unfold OPENAI_API_KEY.
    destruct (getenv w "LLM_API_KEY") as [key|]; [|reflexivity].
    cbn in Hw. rewrite Hw. reflexivity. }
  split; [|split].
  - induction Hws as [|w ws0 Hw _ IH]; [reflexivity|].
    cbn [session]. unfold run. rewrite (Hone w s Hw). exact IH.
  - induction Hws as [|w ws0 Hw _ IH]; [reflexivity|].
    cbn [session_trace map]. unfold run, trace. rewrite (Hone w s Hw).
    cbn [fst snd app]. rewrite IH. reflexivity.
  - intros w Hin. unfold outcome.
    rewrite (Hone w s); [reflexivity|].
    rewrite Forall_forall in Hws. apply Hws, Hin.
Qed.

Lemma missing_key_aborts_witness :
  session [More.no_key;
           Sample.world_of More.env_empty_key "Eres un asistente." CvAbsent
             "Hola" (Sample.answered 200 "OK" (JStr "Hola")) Sample.sheets_ok]
    fresh = fresh
  /\ session_trace
       [More.no_key;
        Sample.world_of More.env_empty_key "Eres un asistente." CvAbsent
          "Hola" (Sample.answered 200 "OK" (JStr "Hola")) Sample.sheets_ok]
       fresh
     = [LoadDotenv ".env"; LoadDotenv ".env"].
Proof.
  destruct (missing_key_aborts
              [More.no_key;
               Sample.world_of More.env_empty_key "Eres un asistente."
                 CvAbsent "Hola" (Sample.answered 200 "OK" (JStr "Hola"))
                 Sample.sheets_ok]
              fresh) as (Hs & Ht & _).
  - repeat constructor.
  - split; assumption.
Defined.

(** X2. A prompt or a knowledge record that cannot be read ends the run
    with the exception of the read, whatever the widget holds.  Up to
    then the run has looked up [.env], set the page configuration and the
    title, and opened the sources up to the failing one: the sources
    after it are not touched, the widget is not drawn, nothing is sent or
    logged, no message of the history is shown, and the history stays as
    it was. *)
Theorem unreadable_source_is_fatal (w : world) (key : string)
    (s : session_state) (e : exn) :
  OPENAI_API_KEY w = Ok key ->
  prompt_txt w = Raise e
  \/ (exists p, prompt_txt w = Ok p) /\ knowledge_json w = Raise e ->
  outcome w s = Raise e
  /\ history_of (run w s) = history_of s
  /\ trace w s
     = LoadDotenv ".env"
       :: StSetPageConfig "Asistente Virtual Personalizado" "🤖"
       :: StTitle "Asistente Virtual Personalizado"
       :: OpenRead "prompt.txt"
       :: match prompt_txt w with
          | Raise _ => []
          | Ok _ => [OpenRead "knowledge.json"]
          end.
Proof.
  intros Hkey Hsrc.
  assert (Hload : load_failure w = Some e).
  { unfold load_failure. destruct Hsrc as [Hp|((p & Hp) & Hk)].
    - rewrite Hp. reflexivity.
    - rewrite Hp, Hk. reflexivity. }
  unfold outcome, run, trace. rewrite (script_fatal w key s e Hkey Hload).
  cbn [fst snd]. split; [reflexivity|]. split; [reflexivity|].
  unfold fatal_trace. destruct Hsrc as [Hp|((p & Hp) & Hk)].
  - rewrite Hp. reflexivity.
  - rewrite Hp, Hk. reflexivity.
Qed.

Lemma unreadable_source_is_fatal_witness :
  outcome More.no_knowledge fresh
  = Raise (More.file_not_found "knowledge.json")
  /\ history_of (run More.no_knowledge fresh) = []
  /\ trace More.no_knowledge fresh
     = [LoadDotenv ".env";
        StSetPageConfig "Asistente Virtual Personalizado" "🤖";
        StTitle "Asistente Virtual Personalizado";
        OpenRead "prompt.txt"; OpenRead "knowledge.json"].
Proof.
  apply (unreadable_source_is_fatal More.no_knowledge "sk-test" fresh
           (More.file_not_found "knowledge.json")).
  - reflexivity.
  - right. split; [exists "Eres un asistente."|]; reflexivity.
Defined.

(** X3. A [CV.pdf] that exists and cannot be opened or read is fatal,
    unlike a missing one: the run ends with the exception of
    [pdfplumber].  Up to then it has looked up [.env], set the page
    configuration and the title, read the prompt and the knowledge
    record, and found and opened the document: the widget is not drawn,
    nothing is sent or logged, no message of the history is shown, and
    the history stays as it was. *)
Theorem unreadable_cv_is_fatal (w : world) (key p : string) (k : json)
    (s : session_state) (e : exn) :
  OPENAI_API_KEY w = Ok key -> prompt_txt w = Ok p ->
  knowledge_json w = Ok k -> cv_pdf w = CvUnreadable e ->
  outcome w s = Raise e
  /\ history_of (run w s) = history_of s
  /\ trace w s
     = [LoadDotenv ".env";
        StSetPageConfig "Asistente Virtual Personalizado" "🤖";
        StTitle "Asistente Virtual Personalizado";
        OpenRead "prompt.txt"; OpenRead "knowledge.json";
        PathExists "CV.pdf"; PdfOpen "CV.pdf"].
Proof.
  intros Hkey Hp Hk Hcv.
  assert (Href : reference_text w = Raise e)
    by (unfold reference_text, load_cv; rewrite Hcv; reflexivity).
  assert (Hload : load_failure w = Some e)
    by (unfold load_failure; rewrite Hp, Hk, Href; reflexivity).
  unfold outcome, run, trace. rewrite (script_fatal w key s e Hkey Hload).
  cbn [fst snd]. split; [reflexivity|]. split; [reflexivity|].
  unfold fatal_trace, cv_trace, load_cv. rewrite Hp, Hk, Hcv. reflexivity.
Qed.

Lemma unreadable_cv_is_fatal_witness :
  outcome More.broken_cv fresh
  = Raise (mkExn "PdfminerException"
             "No /Root object! - Is this really a PDF?")
  /\ history_of (run More.broken_cv fresh) = [].
Proof.
  destruct (unreadable_cv_is_fatal More.broken_cv "sk-test"
              "Eres un asistente." Sample.knowledge fresh
              (mkExn "PdfminerException"
                 "No /Root object! - Is this really a PDF?"))
    as (Hout & Hh & _); try reflexivity.
  split; assumption.
Defined.

Lemma page_lines_textless (texts : list string) :
  Forall (fun t => t = EmptyString) texts -> page_lines texts = EmptyString.
Proof.
  induction 1 as [|t rest Ht _ IH]; [reflexivity|].
  cbn. rewrite Ht. exact IH.
Qed.

(** X4. A [CV.pdf] none of whose pages has text (a scan) gives the empty
    reference text, as a missing file does: the turn is sent with the
    system message of an empty reference text. *)
Theorem textless_cv_is_empty (w : world) (key p : string) (k : json)
    (texts : list string) (s : session_state) :
  OPENAI_API_KEY w = Ok key -> prompt_txt w = Ok p ->
  knowledge_json w = Ok k -> cv_pdf w = CvPages texts ->
  Forall (fun t => t = EmptyString) texts ->
  load_cv w s
  = (Ok EmptyString, s, [PathExists "CV.pdf"; PdfOpen "CV.pdf"])
  /\ (PyStr.truthy (text_input w) = true ->
      posted (trace w s)
      = [assemble p k EmptyString (history_of s) (text_input w)]).
Proof.
  intros Hkey Hp Hk Hcv Htexts.
  assert (Hload : forall s0,
             load_cv w s0
             = (Ok EmptyString, s0, [PathExists "CV.pdf"; PdfOpen "CV.pdf"])).
  { intros s0. unfold load_cv. rewrite Hcv. cbn.
    rewrite cv_pages_lines, (page_lines_textless texts Htexts). reflexivity. }
  split; [apply Hload|]. intros Hu.
  assert (Hr : ready w key p k EmptyString).
  { repeat split; auto. unfold reference_text. rewrite Hload. reflexivity. }
  unfold trace. rewrite (script_turn w key p k EmptyString s Hr Hu).
  apply turn_trace_spec.
Qed.

Lemma textless_cv_is_empty_witness :
  load_cv More.scanned_cv fresh
  = (Ok EmptyString, fresh, [PathExists "CV.pdf"; PdfOpen "CV.pdf"]).
Proof.
  apply (textless_cv_is_empty More.scanned_cv "sk-test" "Eres un asistente."
           Sample.knowledge [EmptyString; EmptyString] fresh);
    try reflexivity.
  repeat constructor.
Defined.

(** *** What a session keeps *)

Lemma run_session_id (w : world) (s : session_state) (sid : string) :
  session_id s = Some sid -> session_id (run w s) = Some sid.
Proof.
  intros Hsid. unfold run.
  destruct (script_run_case w s); cbn; unfold session_id_in;
    rewrite ?Hsid; reflexivity.
Qed.

Lemma session_session_id (ws : list world) (s : session_state) (sid : string) :
  session_id s = Some sid -> session_id (session ws s) = Some sid.
Proof.
  revert s. induction ws as [|w ws IH]; intros s Hsid; [exact Hsid|].
  cbn [session]. apply IH, run_session_id, Hsid.
Qed.

(** X5. The session id is fixed by the first run that gets past the API
    key check: it is the id already stored, or else that run's uuid, and
    no later run of the session changes it, whatever happens in it. *)
Theorem session_id_stable (w : world) (key : string) (ws : list world)
    (s : session_state) :
  OPENAI_API_KEY w = Ok key ->
  session_id (session (w :: ws) s)
  = Some (match session_id s with
          | Some sid => sid
          | None => uuid4 w
          end).
Proof.
  intros Hkey. cbn [session]. apply session_session_id. unfold run.
  destruct (script_run_case w s) as [e He|? ? _ _|? ? ? ? _ _|? ? ? ? _ _];
    [congruence|reflexivity..].
Qed.

Lemma session_id_stable_witness :
  session_id (session [Sample.idle; More.no_prompt; Sample.acme] fresh)
  = Some "0b9f2c1e-6d5a-4c3b-9a8f-7e6d5c4b3a21".
Proof.
  apply (session_id_stable Sample.idle "sk-test"
           [More.no_prompt; Sample.acme] fresh).
  reflexivity.
Defined.

Lemma run_user_agent (w : world) (s : session_state) :
  user_agent (run w s) = user_agent s.
Proof. unfold run. destruct (script_run_case w s); reflexivity. Qed.

Lemma session_user_agent (ws : list world) (s : session_state) :
  user_agent (session ws s) = user_agent s.
Proof.
  revert s. induction ws as [|w ws IH]; intros s; [reflexivity|].
  cbn [session]. rewrite IH. apply run_user_agent.
Qed.

Lemma log_trace_rows (w : world) (sid user_input : string)
    (assistant_reply : json) (duration_ms : Z) (agent : string) :
  rows (log_trace w sid user_input assistant_reply duration_ms agent)
  = if reaches_append w
    then [log_row w sid user_input assistant_reply duration_ms agent]
    else [].
Proof.
  rewrite log_trace_steps.
  unfold reaches_append, client_available, client_steps, record_steps,
    no_credentials, connect_error, record_error.
  destruct (getenv w "GOOGLE_CREDENTIALS_JSON") as [[|c g]|]; cbn; auto.
  destruct (json_loads_creds (gsheets w)); cbn; auto.
  destruct (from_service_account_info (gsheets w)); cbn; auto.
  destruct (authorize (gsheets w)); cbn; auto.
  destruct (open_spreadsheet (gsheets w)); cbn; auto.
  destruct (worksheet (gsheets w)); cbn; auto.
  destruct (append_row (gsheets w)); cbn; auto.
Qed.

(** The rows of a run: none, or the one row of its exchange. *)
Lemma run_rows (w : world) (s : session_state) :
  rows (trace w s) = []
  \/ run w s = exchanged w s
     /\ rows (trace w s)
        = [log_row w (session_id_in w s) (text_input w) (reply_of w)
             (elapsed_ms w) (agent_in s)].
Proof.
  unfold run, trace.
  destruct (script_run_case w s) as [e He|key e _ _|key p k cv _ _|key p k cv _ _];
    unboot.
  - left. reflexivity.
  - left. apply fatal_trace_quiet.
  - left. apply idle_trace_quiet.
  - destruct (turn_trace_spec w key p k cv s) as (_ & _ & -> & _).
    rewrite log_trace_rows. destruct (reaches_append w); auto.
Qed.

(** X6. Nothing ever assigns [user_agent] in the session state, so in a
    session that starts empty the client identifier of every logged row
    is the default ["streamlit-client"]. *)
Theorem client_identifier_default (ws : list world) (w : world)
    (row : list json) :
  In row (rows (trace w (session ws fresh))) ->
  user_agent (session ws fresh) = None
  /\ nth_error row 5 = Some (JStr "streamlit-client").
Proof.
  intros Hin. pose proof (session_user_agent ws fresh) as Hua.
  split; [exact Hua|].
  destruct (run_rows w (session ws fresh)) as [Hnone|(_ & Hrow)].
  - rewrite Hnone in Hin. destruct Hin.
  - rewrite Hrow in Hin. destruct Hin as [<-|[]].
    unfold log_row, agent_in. rewrite Hua. reflexivity.
Qed.

Lemma client_identifier_default_witness :
  user_agent (session [Sample.acme] fresh) = None
  /\ nth_error
       [ JStr "2024-05-01T10:00:00.123456";
         JStr "0b9f2c1e-6d5a-4c3b-9a8f-7e6d5c4b3a21";
         JStr "What is your experience?"; JStr Sample.acme_reply;
         JInt 1234; JStr "streamlit-client" ] 5
     = Some (JStr "streamlit-client").
Proof.
  apply (client_identifier_default [Sample.acme] Sample.acme_logged).
  left. reflexivity.
Defined.

(** X7. A run sends at most one request, always with the timeout 60, and
    hands at most one row to the log store, and that only when it sent a
    request: nothing is retried and nothing is logged without an
    exchange. *)
Theorem one_request_per_run (w : world) (s : session_state) :
  length (posted (trace w s)) <= 1
  /\ Forall (fun t => t = 60%Z) (timeouts (trace w s))
  /\ length (rows (trace w s)) <= length (posted (trace w s)).
Proof.
  unfold trace.
  destruct (script_run_case w s) as [e He|key e _ _|key p k cv _ _|key p k cv _ _];
    unboot.
  - cbn. auto.
  - destruct (fatal_trace_quiet w) as ((-> & -> & -> & _) & _). cbn. auto.
  - destruct (idle_trace_quiet w s) as ((-> & -> & -> & _) & _). cbn. auto.
  - destruct (turn_trace_spec w key p k cv s) as (-> & -> & -> & _).
    rewrite log_trace_rows. destruct (reaches_append w); cbn; auto.
Qed.

Lemma run_counts (w : world) (s : session_state) :
  length (history_of (run w s))
  = length (history_of s) + 2 * length (posted (trace w s)).
Proof.
  unfold run, trace.
  destruct (script_run_case w s) as [e He|key e _ _|key p k cv _ _|key p k cv _ _];
    unboot.
  - cbn. lia.
  - destruct (fatal_trace_quiet w) as ((-> & _) & _). cbn. lia.
  - destruct (idle_trace_quiet w s) as ((-> & _) & _). cbn. lia.
  - destruct (turn_trace_spec w key p k cv s) as (-> & _).
    rewrite history_of_exchanged, length_app. cbn. lia.
Qed.

Lemma session_counts (ws : list world) (s : session_state) :
  length (history_of (session ws s))
  = length (history_of s) + 2 * length (posted (session_trace ws s)).
Proof.
  revert s. induction ws as [|w ws IH]; intros s; [cbn; lia|].
  cbn [session session_trace]. rewrite IH, run_counts, posted_app, length_app.
  lia.
Qed.

(** X8. In a session that starts empty the history holds exactly two
    turns for every request sent so far, whether the request succeeded
    or failed. *)
Theorem history_counts_requests (ws : list world) :
  length (history_of (session ws fresh))
  = 2 * length (posted (session_trace ws fresh)).
Proof. rewrite session_counts. reflexivity. Qed.

Lemma request_sizes_app (first n m : nat) :
  request_sizes first (n + m)
  = (request_sizes first n ++ request_sizes (first + 2 * n) m)%list.
Proof.
  revert first. induction n as [|n IH]; intros first; cbn [request_sizes Nat.add].
  - replace (first + 2 * 0) with first by lia. reflexivity.
  - rewrite IH. cbn [app]. do 3 f_equal. lia.
Qed.

Lemma session_request_sizes (ws : list world) (s : session_state) :
  map (@length message) (posted (session_trace ws s))
  = request_sizes (length (history_of s) + 2)
      (length (posted (session_trace ws s))).
Proof.
  revert s. induction ws as [|w ws IH]; intros s; [reflexivity|].
  cbn [session_trace]. rewrite posted_app, map_app, length_app.
  rewrite request_sizes_app, IH, run_counts. f_equal; [|f_equal; lia].
  unfold trace.
  destruct (script_run_case w s) as [e He|key e _ _|key p k cv _ _|key p k cv _ _];
    unboot.
  - reflexivity.
  - destruct (fatal_trace_quiet w) as ((-> & _) & _). reflexivity.
  - destruct (idle_trace_quiet w s) as ((-> & _) & _). reflexivity.
  - destruct (turn_trace_spec w key p k cv s) as (-> & _).
    cbn. rewrite length_app. cbn. do 2 f_equal. lia.
Qed.

(** X9. The history is never truncated nor summarised: in a session that
    starts empty the first request carries 2 messages, the second 4, the
    third 6, and so on, each request two more than the one before. *)
Theorem request_sizes_grow (ws : list world) :
  map (@length message) (posted (session_trace ws fresh))
  = request_sizes 2 (length (posted (session_trace ws fresh))).
Proof. apply (session_request_sizes ws fresh). Qed.

Example three_requests :
  map (@length message)
    (posted (session_trace
               [Sample.acme; Sample.idle; Sample.http500; More.no_prompt;
                Sample.acme_edited] fresh))
  = [2; 4; 6].
Proof. reflexivity. Qed.

Lemma run_roles (P : message -> Prop) (w : world) (s : session_state) :
  (forall u, P (user_turn u)) -> (forall v, P (assistant_turn v)) ->
  Forall P (history_of s) -> Forall P (history_of (run w s)).
Proof.
  intros Hu Ha Hs. destruct (run_history w s) as [->| ->]; [exact Hs|].
  apply Forall_app. split; [exact Hs|]. repeat constructor; auto.
Qed.

Lemma session_posted_roles (ws : list world) (s : session_state)
    (msgs : list message) :
  Forall (fun m => role m = "user" \/ role m = "assistant") (history_of s) ->
  In msgs (posted (session_trace ws s)) ->
  exists sys rest,
    msgs = sys :: rest /\ role sys = "system"
    /\ Forall (fun m => role m = "user" \/ role m = "assistant") rest.
Proof.
  revert s. induction ws as [|w ws IH]; intros s Hs Hin; [destruct Hin|].
  cbn [session_trace] in Hin. rewrite posted_app in Hin.
  apply in_app_or in Hin. destruct Hin as [Hin|Hin].
  - unfold trace in Hin.
    destruct (script_run_case w s)
      as [e He|key e _ _|key p k cv _ _|key p k cv _ _]; cbn [snd posted] in Hin.
    + destruct Hin.
    + destruct (fatal_trace_quiet w) as ((Hp & _) & _).
      rewrite Hp in Hin. destruct Hin.
    + destruct (idle_trace_quiet w s) as ((Hp & _) & _).
      rewrite Hp in Hin. destruct Hin.
    + destruct (turn_trace_spec w key p k cv s) as (Hp & _).
      rewrite Hp in Hin. destruct Hin as [<-|[]].
      exists (system_message p k cv),
        (history_of s ++ [mkMessage "user" (JStr (text_input w))])%list.
      split; [reflexivity|]. split; [reflexivity|].
      apply Forall_app. split; [exact Hs|].
      constructor; [left; reflexivity|constructor].
  - apply (IH (run w s)); [|exact Hin].
    apply run_roles; [intros u; left; reflexivity
                     |intros v; right; reflexivity|exact Hs].
Qed.

(** X10. The system message is built anew for every request and never
    stored: in a session that starts empty every request begins with one
    system message and all the messages after it are user or assistant
    turns. *)
Theorem single_system_message (ws : list world) (msgs : list message) :
  In msgs (posted (session_trace ws fresh)) ->
  exists sys rest,
    msgs = sys :: rest /\ role sys = "system"
    /\ Forall (fun m => role m = "user" \/ role m = "assistant") rest.
Proof. apply session_posted_roles. constructor. Qed.

Lemma single_system_message_witness :
  exists sys rest,
    [mkMessage "system" (JStr Sample.acme_system);
     mkMessage "user" (JStr "What is your experience?")]
    = sys :: rest /\ role sys = "system"
    /\ Forall (fun m => role m = "user" \/ role m = "assistant") rest.
Proof.
  apply (single_system_message [Sample.acme; Sample.acme_edited]).
  left. reflexivity.
Defined.

(** *** What is displayed *)

Lemma run_displayed (w : world) (s : session_state) :
  displayed (trace w s)
  = match outcome w s with
    | Ok _ => map (fun m => (label_of m, content m)) (history_of (run w s))
    | Raise _ => []
    end.
Proof.
  unfold trace, outcome, run.
  destruct (script_run_case w s) as [e He|key e _ _|key p k cv _ _|key p k cv _ _];
    unboot.
  - reflexivity.
  - apply fatal_trace_silent.
  - unfold idle_trace, opening.
    destruct (cv_trace_silent w) as (Hd & _).
    destruct (shown_displayed (history_of s)) as (Sd & _).
    read_more. rewrite Hd, Sd. reflexivity.
  - unfold turn_trace, opening, post_event.
    destruct (cv_trace_silent w) as (Hd & _).
    destruct (shown_displayed (history_of (exchanged w s))) as (Sd & _).
    destruct (log_trace_silent w (session_id_in w s) (text_input w)
                (reply_of w) (elapsed_ms w) (agent_in s)) as (Ld & _).
    read_more. rewrite Hd, Sd, Ld. reflexivity.
Qed.

(** X11. A run that ends normally displays the whole history as it is
    after the run, every message once and in order, a user message under
    the label ["**Tú:**"] and any other under ["**Asistente:**"]; a run
    that raises displays no message. *)
Theorem display_shows_history (w : world) (s : session_state) :
  displayed (trace w s)
  = match outcome w s with
    | Ok _ =>
        map (fun m =>
               (if String.eqb (role m) "user" then "**Tú:**"
                else "**Asistente:**", content m))
          (history_of (run w s))
    | Raise _ => []
    end.
Proof. exact (run_displayed w s). Qed.

(** *** What is logged *)

(** X12. The row of a run records the exchange that the run appended to
    the history: its third column is the question of the new user turn,
    its fourth the content of the new assistant turn (the error text
    when the completion failed), its second the session id. *)
Theorem logged_row_matches_history (w : world) (s : session_state)
    (row : list json) :
  In row (rows (trace w s)) ->
  exists sid reply,
    session_id (run w s) = Some sid
    /\ history_of (run w s)
       = (history_of s
          ++ [mkMessage "user" (JStr (text_input w));
              mkMessage "assistant" reply])%list
    /\ row = [ JStr (utcnow w); JStr sid; JStr (text_input w); reply;
               JInt (elapsed_ms w); JStr (agent_in s) ]
    /\ (forall e, completion w = Raise e ->
        reply = JStr ("Error consultando el modelo: " ++ exn_text e)).
Proof.
  intros Hin. destruct (run_rows w s) as [Hnone|(Hrun & Hrow)].
  - rewrite Hnone in Hin. destruct Hin.
  - rewrite Hrow in Hin. destruct Hin as [<-|[]].
    exists (session_id_in w s), (reply_of w). rewrite Hrun.
    split; [reflexivity|]. split; [apply history_of_exchanged|].
    split; [reflexivity|]. apply reply_of_failure.
Qed.

Lemma logged_row_matches_history_witness :
  exists sid reply,
    session_id (run Sample.acme_logged fresh) = Some sid
    /\ history_of (run Sample.acme_logged fresh)
       = [mkMessage "user" (JStr "What is your experience?");
          mkMessage "assistant" reply]
    /\ [ JStr "2024-05-01T10:00:00.123456";
         JStr "0b9f2c1e-6d5a-4c3b-9a8f-7e6d5c4b3a21";
         JStr "What is your experience?"; JStr Sample.acme_reply;
         JInt 1234; JStr "streamlit-client" ]
       = [ JStr "2024-05-01T10:00:00.123456"; JStr sid;
           JStr "What is your experience?"; reply; JInt 1234;
           JStr "streamlit-client" ].
Proof.
  destruct (logged_row_matches_history Sample.acme_logged fresh
              [ JStr "2024-05-01T10:00:00.123456";
                JStr "0b9f2c1e-6d5a-4c3b-9a8f-7e6d5c4b3a21";
                JStr "What is your experience?"; JStr Sample.acme_reply;
                JInt 1234; JStr "streamlit-client" ])
    as (sid & reply & Hsid & Hh & Hrow & _).
  - left. reflexivity.
  - exists sid, reply. repeat split; assumption.
Defined.

(** *** The steps to the log store *)

Ltac no_client e :=
  split; [split; [discriminate|intros (_ & ? & ? & ?); congruence]|];
  split; [discriminate|]; split; [discriminate|];
  intros _ _; exists e; split; [reflexivity|tauto].

(** X13. [get_gsheets_client] never raises and leaves the session state
    alone.  It returns a client exactly when the credentials variable is
    set and non-empty and parsing, building the credentials and
    authorizing all go through; otherwise it returns [None] after one
    [st.error]: the text of line 62 when the variable is unset or empty
    (nothing else is attempted then), the text of line 74 with the
    message of the exception otherwise. *)
Theorem gsheets_client_outcome (w : world) (s : session_state) :
  exists c t,
    get_gsheets_client w s = (Ok c, s, t)
    /\ (c = Some Client <->
        PyStr.truthy_opt (getenv w "GOOGLE_CREDENTIALS_JSON") = true
        /\ json_loads_creds (gsheets w) = None
        /\ from_service_account_info (gsheets w) = None
        /\ authorize (gsheets w) = None)
    /\ (c = Some Client -> warnings t = [])
    /\ (PyStr.truthy_opt (getenv w "GOOGLE_CREDENTIALS_JSON") = false ->
        c = None
        /\ t = [StError "⚠️ No se encontró GOOGLE_CREDENTIALS_JSON en los secrets"])
    /\ (PyStr.truthy_opt (getenv w "GOOGLE_CREDENTIALS_JSON") = true ->
        c = None ->
        exists e,
          warnings t = ["Error conectando con Google Sheets: " ++ exn_text e]
          /\ (json_loads_creds (gsheets w) = Some e
              \/ from_service_account_info (gsheets w) = Some e
              \/ authorize (gsheets w) = Some e)).
Proof.
  exists (if client_available w then Some Client else None), (client_steps w).
  split; [apply get_gsheets_client_run|].
  unfold client_available, client_steps, no_credentials, connect_error.
  destruct (PyStr.truthy_opt (getenv w "GOOGLE_CREDENTIALS_JSON"));
    cbn [negb andb].
  - destruct (json_loads_creds (gsheets w)) as [e1|];
      [no_client e1|].
    destruct (from_service_account_info (gsheets w)) as [e2|];
      [no_client e2|].
    destruct (authorize (gsheets w)) as [e3|]; [no_client e3|].
    split; [tauto|]. split; [reflexivity|].
    split; [discriminate|]. intros _ H. discriminate H.
  - split; [split; [discriminate|intros (H & _); discriminate H]|].
    split; [discriminate|]. split; [auto|]. intros H. discriminate H.
Qed.

(** X14. In a session with an id, [log_interaction] hands a row to
    [append_row] exactly when it got a client and both the spreadsheet
    and the worksheet were found, and then exactly one.  When there is no
    client it returns without a message of its own; when a later step
    raises, the steps after it are skipped and the one [st.error] of line
    95 carries the message of the exception. *)
Theorem row_appended_when_reachable (w : world) (user_input : string)
    (assistant_reply : json) (duration_ms : Z) (agent : string)
    (s : session_state) (sid : string) :
  session_id s = Some sid ->
  let t := snd (log_interaction w user_input assistant_reply duration_ms
                  agent s) in
  let row := [ JStr (utcnow w); JStr sid; JStr user_input; assistant_reply;
               JInt duration_ms; JStr agent ] in
  rows t
  = (if client_available w
     then match open_spreadsheet (gsheets w), worksheet (gsheets w) with
          | None, None => [row]
          | _, _ => []
          end
     else [])
  /\ (client_available w = false ->
      t = snd (get_gsheets_client w s))
  /\ (client_available w = true ->
      warnings t
      = match open_spreadsheet (gsheets w), worksheet (gsheets w),
              append_row (gsheets w) with
        | Some e, _, _ | None, Some e, _ | None, None, Some e =>
            ["No se pudo registrar en Google Sheets: " ++ exn_text e]
        | None, None, None => []
        end).
Proof.
  intros Hsid t row. subst t row.
  rewrite (log_interaction_run w user_input assistant_reply duration_ms agent
             s sid Hsid), get_gsheets_client_run. unboot.
  rewrite log_trace_rows, log_trace_steps.
  unfold reaches_append, log_row, record_steps, record_error.
  destruct (client_available w) eqn:Hc; cbn [andb].
  - split; [destruct (open_spreadsheet (gsheets w));
            [|destruct (worksheet (gsheets w))]; reflexivity|].
    split; [discriminate|]. intros _.
    assert (Hw : warnings (client_steps w) = []).
    { revert Hc.
      unfold client_available, client_steps, no_credentials, connect_error.
      destruct (PyStr.truthy_opt (getenv w "GOOGLE_CREDENTIALS_JSON")); cbn;
        [|discriminate].
      destruct (json_loads_creds (gsheets w)); [discriminate|].
      destruct (from_service_account_info (gsheets w)); [discriminate|].
      destruct (authorize (gsheets w)); [discriminate|]. reflexivity. }
    rewrite warnings_app, Hw.
    destruct (open_spreadsheet (gsheets w));
      [|destruct (worksheet (gsheets w));
        [|destruct (append_row (gsheets w))]]; reflexivity.
  - split; [reflexivity|]. split; [|discriminate]. intros _.
    apply app_nil_r.
Qed.

Lemma row_appended_when_reachable_witness :
  rows (snd (log_interaction More.append_refused "Hola" (JStr "Hola") 1234%Z
               "streamlit-client"
               (mkSession (Some "0b9f2c1e") (Some []) None)))
  = [[ JStr "2024-05-01T10:00:00.123456"; JStr "0b9f2c1e"; JStr "Hola";
       JStr "Hola"; JInt 1234; JStr "streamlit-client" ]].
Proof.
  apply (row_appended_when_reachable More.append_refused "Hola" (JStr "Hola")
           1234%Z "streamlit-client"
           (mkSession (Some "0b9f2c1e") (Some []) None) "0b9f2c1e").
  reflexivity.
Defined.

Example append_refused_warning :
  warnings (trace More.append_refused fresh)
  = ["No se pudo registrar en Google Sheets: quota exceeded"]
  /\ warnings (trace More.bad_creds fresh)
     = ["Error conectando con Google Sheets: "
        ++ "Expecting property name enclosed in double quotes: "
        ++ "line 1 column 2 (char 1)"]
  /\ sheet_calls (trace More.bad_creds fresh) = [].
Proof. repeat split. Qed.

(** *** The request *)

Lemma turn_trace_requests (w : world) (key p : string) (k : json)
    (cv : string) (s : session_state) :
  requests (turn_trace w key p k cv s)
  = [(getenv_default w "LLM_API_URL"
        "https://api.openai.com/v1/chat/completions",
      [("Authorization", "Bearer " ++ key);
       ("Content-Type", "application/json")],
      getenv_default w "LLM_MODEL" "gpt-4o-mini")].
Proof.
  unfold turn_trace, opening, post_event.
  destruct (cv_trace_silent w) as (_ & Hr & _).
  destruct (shown_displayed (history_of (exchanged w s))) as (_ & Sr & _).
  destruct (log_trace_silent w (session_id_in w s) (text_input w)
              (reply_of w) (elapsed_ms w) (agent_in s)) as (_ & Lr).
  read_more. rewrite Hr, Sr, Lr. reflexivity.
Qed.

(** X15. The request of a turn goes to the URL and names the model that
    the environment gives, the defaults standing in only for a variable
    that is unset (an empty value is used as it is); its bearer token is
    the [LLM_API_KEY] of the environment, which is not empty. *)
Theorem request_configuration (w : world) (key p : string) (k : json)
    (cv : string) (s : session_state) :
  ready w key p k cv -> PyStr.truthy (text_input w) = true ->
  requests (trace w s)
  = [(match getenv w "LLM_API_URL" with
      | Some u => u
      | None => "https://api.openai.com/v1/chat/completions"
      end,
      [("Authorization", "Bearer " ++ key);
       ("Content-Type", "application/json")],
      match getenv w "LLM_MODEL" with
      | Some m => m
      | None => "gpt-4o-mini"
      end)]
  /\ getenv w "LLM_API_KEY" = Some key
  /\ key <> EmptyString.
Proof.
  intros Hr Hu. unfold trace. rewrite (script_turn w key p k cv s Hr Hu).
  unboot. split; [apply turn_trace_requests|].
  destruct Hr as (Hkey & _). unfold OPENAI_API_KEY in Hkey.
  destruct (getenv w "LLM_API_KEY") as [k0|]; [|discriminate].
  destruct k0 as [|c r]; cbn in Hkey; [discriminate|].
  injection Hkey as <-. split; [reflexivity|discriminate].
Qed.

Lemma request_configuration_witness :
  requests (trace More.custom fresh)
  = [("http://localhost:8080/v1",
      [("Authorization", "Bearer sk-test");
       ("Content-Type", "application/json")],
      EmptyString)].
Proof.
  apply (request_configuration More.custom "sk-test" "Eres un asistente."
           Sample.knowledge EmptyString fresh).
  - repeat split.
  - reflexivity.
Defined.

(** X16. When the endpoint answers, outside the statuses 400..599, with
    a JSON object that has no [choices] key, the reply of the turn is the
    text of the [KeyError], the quoted key; when [choices] is an empty
    list it is the text of the [IndexError]. *)
Theorem missing_choices_reply (w : world) (r : response)
    (fields : list (string * json)) :
  post w = Ok r ->
  ((400 <=? status_code r) && (status_code r <? 600))%Z = false ->
  json_body r = Ok (JDict fields) ->
  (Py.lookup "choices" fields = None ->
   reply_of w = JStr "Error consultando el modelo: 'choices'")
  /\ (Py.lookup "choices" fields = Some (JList []) ->
      reply_of w = JStr "Error consultando el modelo: list index out of range").
Proof.
  intros Hpost Hstatus Hbody.
  pose proof (completion_spec w) as H. unfold http_error in H.
  rewrite Hpost, Hstatus, Hbody in H. unfold reply_of. rewrite H.
  unfold content_path. cbn [Py.getitem_str].
  split; intros ->; reflexivity.
Qed.

Lemma missing_choices_reply_witness :
  reply_of More.no_choices = JStr "Error consultando el modelo: 'choices'".
Proof.
  apply (missing_choices_reply More.no_choices
           (mkResponse 200 "OK" "https://api.openai.com/v1/chat/completions"
              (Ok (JDict [("error", JStr "overloaded")])))
           [("error", JStr "overloaded")]); reflexivity.
Defined.

(** *** The knowledge record in the system message *)

Lemma escape_plain (s : string) : plain s = true -> Json.escape s = s.
Proof.
  induction s as [|c r IH]; [reflexivity|].
  cbn [plain Json.escape]. intros H.
  apply andb_prop in H. destruct H as (H & Hr).
  apply andb_prop in H. destruct H as (H & H92).
  apply andb_prop in H. destruct H as (H32 & H34).
  apply Nat.leb_le in H32.
  apply negb_true_iff, Nat.eqb_neq in H34.
  apply negb_true_iff, Nat.eqb_neq in H92.
  rewrite (IH Hr). unfold Json.escape_char.
  repeat match goal with
         | |- context [?a =? ?n] =>
             destruct (Nat.eqb_spec a n); [lia|]
         end.
  destruct (Nat.ltb_spec (nat_of_ascii c) 32); [lia|]. reflexivity.
Qed.

(** *** The reply of a successful call *)

(** X18. When the endpoint answers outside the statuses 400..599 with a
    JSON body, the assistant turn of the exchange holds exactly the value
    found at [choices[0].message.content], whatever else the body holds
    (further choices, other keys) and whatever the type of the value; the
    same value is displayed last and goes into the row. *)
Theorem successful_reply_is_stored (w : world) (key p : string) (k : json)
    (cv : string) (s : session_state) (r : response) (body v : json) :
  ready w key p k cv -> PyStr.truthy (text_input w) = true ->
  post w = Ok r ->
  ((400 <=? status_code r) && (status_code r <? 600))%Z = false ->
  json_body r = Ok body -> reply_at body = Some v ->
  outcome w s = Ok tt
  /\ history_of (run w s)
     = (history_of s
        ++ [mkMessage "user" (JStr (text_input w));
            mkMessage "assistant" v])%list
  /\ (forall row, In row (rows (trace w s)) -> nth_error row 3 = Some v)
  /\ exists before,
       displayed (trace w s)
       = (before ++ [("**Tú:**", JStr (text_input w));
                     ("**Asistente:**", v)])%list.
Proof.
  intros Hr Hu Hpost Hstatus Hbody Hv.
  assert (Hreply : reply_of w = v).
  { pose proof (completion_spec w) as H. unfold http_error in H.
    rewrite Hpost, Hstatus, Hbody in H. unfold reply_of. rewrite H.
    apply content_path_reply_at in Hv. rewrite Hv. reflexivity. }
  split; [exact (ready_outcome w key p k cv s Hr)|].
  split; [rewrite (turn_history w key p k cv s Hr Hu), Hreply; reflexivity|].
  split.
  - intros row Hin. destruct (run_rows w s) as [Hnone|(_ & Hrow)].
    + rewrite Hnone in Hin. destruct Hin.
    + rewrite Hrow in Hin. destruct Hin as [<-|[]]. cbn. rewrite Hreply.
      reflexivity.
  - rewrite run_displayed, (ready_outcome w key p k cv s Hr).
    rewrite (turn_history w key p k cv s Hr Hu), Hreply, map_app.
    eexists. reflexivity.
Qed.

Lemma successful_reply_is_stored_witness :
  history_of (run Sample.null_content fresh)
  = [mkMessage "user" (JStr "Hola"); mkMessage "assistant" JNull].
Proof.
  apply (successful_reply_is_stored Sample.null_content "sk-test"
           "Eres un asistente." Sample.knowledge EmptyString fresh
           (mkResponse 200 "OK" "https://api.openai.com/v1/chat/completions"
              (Ok (Sample.reply_body JNull)))
           (Sample.reply_body JNull) JNull); try reflexivity.
  repeat split.
Defined.

(** X19. When every step of the logging path goes through, each
    exchange gets exactly one row and no [st.error] is shown: over a
    session the rows are as many as the requests. *)
Theorem every_exchange_logged (ws : list world) (s : session_state) :
  Forall (fun w => logging_works w = true) ws ->
  length (rows (session_trace ws s)) = length (posted (session_trace ws s))
  /\ warnings (session_trace ws s) = [].
Proof.
  intros Hws. revert s.
  induction Hws as [|w ws0 Hw _ IH]; intros s; [split; reflexivity|].
  cbn [session_trace].
  rewrite rows_app, posted_app, warnings_app, !length_app.
  destruct (IH (run w s)) as (-> & ->). rewrite app_nil_r.
  cut (length (rows (trace w s)) = length (posted (trace w s))
       /\ warnings (trace w s) = []); [intros (-> & ->); auto|].
  unfold trace.
  destruct (script_run_case w s) as [e He|key e _ _|key p k cv _ _|key p k cv _ _];
    unboot.
  - split; reflexivity.
  - destruct (fatal_trace_quiet w) as ((-> & _ & -> & -> & _) & _).
    split; reflexivity.
  - destruct (idle_trace_quiet w s) as ((-> & _ & -> & -> & _) & _).
    split; reflexivity.
  - destruct (turn_trace_spec w key p k cv s) as (-> & _ & -> & -> & _).
    destruct (log_trace_spec w (session_id_in w s) (text_input w) (reply_of w)
                (elapsed_ms w) (agent_in s)) as (_ & _ & _ & _ & _ & Hlog).
    rewrite Hw in Hlog. destruct Hlog as (-> & ->). split; reflexivity.
Qed.

Lemma every_exchange_logged_witness :
  length (rows (session_trace [Sample.acme_logged; Sample.acme_logged] fresh))
  = 2.
Proof.
  apply (every_exchange_logged [Sample.acme_logged; Sample.acme_logged] fresh).
  repeat constructor.
Defined.

(** *** The reference text is stripped *)

Section Strip.

Lemma length_append (a b : string) :
  String.length (a ++ b) = String.length a + String.length b.
Proof. induction a as [|c a IH]; cbn; [reflexivity|]. rewrite IH. reflexivity. Qed.

Lemma list_of_append (a b : string) :
  list_ascii_of_string (a ++ b)
  = (list_ascii_of_string a ++ list_ascii_of_string b)%list.
Proof. induction a as [|c a IH]; cbn; [reflexivity|]. rewrite IH. reflexivity. Qed.

Lemma string_of_app (l1 l2 : list ascii) :
  string_of_list_ascii (l1 ++ l2)
  = string_of_list_ascii l1 ++ string_of_list_ascii l2.
Proof. induction l1 as [|c l1 IH]; cbn; [reflexivity|]. rewrite IH. reflexivity. Qed.

Lemma rev_append (a b : string) :
  PyStr.rev (a ++ b) = PyStr.rev b ++ PyStr.rev a.
Proof.
  unfold PyStr.rev. rewrite list_of_append, rev_app_distr, string_of_app.
  reflexivity.
Qed.

Lemma rev_rev (s : string) : PyStr.rev (PyStr.rev s) = s.
Proof.
  unfold PyStr.rev.
  rewrite list_ascii_of_string_of_list_ascii, rev_involutive.
  apply string_of_list_ascii_of_string.
Qed.

Ltac step_ws :=
  cbn [PyStr.drop_ws];
  match goal with
  | |- context [if ?c then PyStr.drop_ws _ _ else _] => destruct c eqn:?
  end.

(** What [drop_ws] leaves is the end of its argument. *)
Lemma drop_ws_suffix_len (n : nat) (back : bool) (s : string) :
  String.length s <= n -> exists t, s = t ++ PyStr.drop_ws back s.
Proof.
  revert s. induction n as [|n IH]; intros s Hn.
  - destruct s; [exists EmptyString; reflexivity|cbn in Hn; lia].
  - destruct s as [|c1 r1]; [exists EmptyString; reflexivity|].
    cbn [String.length] in Hn. step_ws.
    + destruct (IH r1) as (t & Ht); [lia|].
      exists (String c1 t). cbn. rewrite <- Ht. reflexivity.
    + destruct r1 as [|c2 r2]; [exists EmptyString; reflexivity|].
      cbn [String.length] in Hn. step_ws.
      * destruct (IH r2) as (t & Ht); [lia|].
        exists (String c1 (String c2 t)). cbn. rewrite <- Ht. reflexivity.
      * destruct r2 as [|c3 r3]; [exists EmptyString; reflexivity|].
        cbn [String.length] in Hn. step_ws.
        -- destruct (IH r3) as (t & Ht); [lia|].
           exists (String c1 (String c2 (String c3 t))). cbn.
           rewrite <- Ht. reflexivity.
        -- exists EmptyString. reflexivity.
Qed.

Lemma drop_ws_suffix (back : bool) (s : string) :
  exists t, s = t ++ PyStr.drop_ws back s.
Proof. apply (drop_ws_suffix_len (String.length s)). lia. Qed.

Lemma drop_ws_length (back : bool) (s : string) :
  String.length (PyStr.drop_ws back s) <= String.length s.
Proof.
  destruct (drop_ws_suffix back s) as (t & Ht).
  rewrite Ht at 2. rewrite length_append. lia.
Qed.

Lemma drop_ws_idem_len (n : nat) (back : bool) (s : string) :
  String.length s <= n ->
  PyStr.drop_ws back (PyStr.drop_ws back s) = PyStr.drop_ws back s.
Proof.
  revert s. induction n as [|n IH]; intros s Hn.
  - destruct s; [reflexivity|cbn in Hn; lia].
  - destruct s as [|c1 r1]; [reflexivity|].
    cbn [String.length] in Hn. step_ws; [apply IH; lia|].
    destruct r1 as [|c2 r2].
    { cbn [PyStr.drop_ws]. rewrite Heqb. reflexivity. }
    cbn [String.length] in Hn. step_ws; [apply IH; lia|].
    destruct r2 as [|c3 r3].
    { cbn [PyStr.drop_ws]. rewrite Heqb, Heqb0. reflexivity. }
    cbn [String.length] in Hn. step_ws; [apply IH; lia|].
    cbn [PyStr.drop_ws]. rewrite Heqb, Heqb0, Heqb1. reflexivity.
Qed.

Lemma drop_ws_idem (back : bool) (s : string) :
  PyStr.drop_ws back (PyStr.drop_ws back s) = PyStr.drop_ws back s.
Proof. apply (drop_ws_idem_len (String.length s)). lia. Qed.

(** A beginning of a string without leading whitespace has none. *)
Lemma drop_ws_fixed_prefix (q t : string) :
  PyStr.drop_ws false (q ++ t) = q ++ t -> PyStr.drop_ws false q = q.
Proof.
  intros H.
  assert (Hshort : forall c r,
             PyStr.drop_ws false r = String c r -> False).
  { intros c r Hr. pose proof (drop_ws_length false r) as Hl.
    rewrite Hr in Hl. cbn in Hl. lia. }
  assert (Hshort2 : forall c1 c2 r,
             PyStr.drop_ws false r = String c1 (String c2 r) -> False).
  { intros c1 c2 r Hr. pose proof (drop_ws_length false r) as Hl.
    rewrite Hr in Hl. cbn in Hl. lia. }
  assert (Hshort3 : forall c1 c2 c3 r,
             PyStr.drop_ws false r = String c1 (String c2 (String c3 r))
             -> False).
  { intros c1 c2 c3 r Hr. pose proof (drop_ws_length false r) as Hl.
    rewrite Hr in Hl. cbn in Hl. lia. }
  destruct q as [|c1 q1]; [reflexivity|].
  cbn [append PyStr.drop_ws] in H. cbn [PyStr.drop_ws].
  destruct (PyStr.ws1 (nat_of_ascii c1));
    [exfalso; exact (Hshort _ _ H)|].
  destruct q1 as [|c2 q2]; [reflexivity|].
  cbn [append] in H.
  destruct (PyStr.ws2 (nat_of_ascii c1) (nat_of_ascii c2));
    [exfalso; exact (Hshort2 _ _ _ H)|].
  destruct q2 as [|c3 q3]; [reflexivity|].
  cbn [append] in H.
  destruct (PyStr.ws3 (nat_of_ascii c1) (nat_of_ascii c2) (nat_of_ascii c3));
    [exfalso; exact (Hshort3 _ _ _ _ H)|].
  reflexivity.
Qed.

Lemma strip_idem (s : string) : PyStr.strip (PyStr.strip s) = PyStr.strip s.
Proof.
  unfold PyStr.strip, PyStr.lstrip.
  set (u := PyStr.drop_ws false s).
  assert (Hu : PyStr.drop_ws false u = u) by apply drop_ws_idem.
  assert (Hq : PyStr.drop_ws false (PyStr.rstrip u) = PyStr.rstrip u).
  { unfold PyStr.rstrip.
    destruct (drop_ws_suffix true (PyStr.rev u)) as (t & Ht).
    apply (drop_ws_fixed_prefix _ (PyStr.rev t)).
    rewrite <- rev_append, <- Ht, rev_rev. exact Hu. }
  rewrite Hq. unfold PyStr.rstrip. rewrite rev_rev, drop_ws_idem.
  reflexivity.
Qed.

Lemma strip_fixed (s : string) :
  PyStr.lstrip (PyStr.strip s) = PyStr.strip s
  /\ PyStr.rstrip (PyStr.strip s) = PyStr.strip s.
Proof.
  unfold PyStr.strip, PyStr.lstrip.
  set (u := PyStr.drop_ws false s).
  assert (Hu : PyStr.drop_ws false u = u) by apply drop_ws_idem.
  split.
  - unfold PyStr.rstrip.
    destruct (drop_ws_suffix true (PyStr.rev u)) as (t & Ht).
    apply (drop_ws_fixed_prefix _ (PyStr.rev t)).
    rewrite <- rev_append, <- Ht, rev_rev. exact Hu.
  - unfold PyStr.rstrip. rewrite rev_rev, drop_ws_idem. reflexivity.
Qed.

End Strip.

(** X20. The reference text that [load_cv] returns is stripped:
    stripping it again changes nothing, and neither its first nor its
    last byte is an ASCII whitespace character (blank, tab, line end and
    the like). *)
Theorem reference_text_is_stripped (w : world) (s : session_state)
    (cv : string) :
  fst (fst (load_cv w s)) = Ok cv ->
  PyStr.strip cv = cv
  /\ forall c r,
       cv = String c r \/ PyStr.rev cv = String c r ->
       PyStr.ws1 (nat_of_ascii c) = false.
Proof.
  intros Hcv.
  assert (Hstripped : exists raw, cv = PyStr.strip raw).
  { unfold load_cv, bind, emit in Hcv.
    destruct (cv_pdf w) as [|e|texts]; cbn in Hcv.
    - exists EmptyString. injection Hcv as <-. reflexivity.
    - discriminate.
    - eexists. injection Hcv as <-. reflexivity. }
  destruct Hstripped as (raw & ->).
  split; [apply strip_idem|].
  destruct (strip_fixed raw) as (Hl & Hr).
  assert (Hhead : forall back c r,
             PyStr.drop_ws back (String c r) = String c r ->
             PyStr.ws1 (nat_of_ascii c) = false).
  { intros back c r H. cbn [PyStr.drop_ws] in H.
    destruct (PyStr.ws1 (nat_of_ascii c)); [|reflexivity].
    pose proof (drop_ws_length back r) as Hlen. rewrite H in Hlen.
    cbn in Hlen. lia. }
  intros c r [Hc|Hc].
  - apply (Hhead false c r). rewrite <- Hc. exact Hl.
  - apply (Hhead true c r). rewrite <- Hc.
    unfold PyStr.rstrip in Hr. rewrite <- Hr at 2. rewrite rev_rev.
    reflexivity.
Qed.

Lemma reference_text_is_stripped_witness :
  PyStr.strip ("Hola  " ++ PyStr.nl ++ "Mundo")
  = "Hola  " ++ PyStr.nl ++ "Mundo".
Proof.
  apply (reference_text_is_stripped More.padded_cv fresh
           ("Hola  " ++ PyStr.nl ++ "Mundo")).
  reflexivity.
Defined.

(** *** The pages joined by newlines *)

Section Joined.

Lemma ws2_nl_r (a : nat) : PyStr.ws2 a 10 = false.
Proof. unfold PyStr.ws2. cbn. apply andb_false_r. Qed.

Lemma ws2_nl_l (b : nat) : PyStr.ws2 10 b = false.
Proof. reflexivity. Qed.

Lemma ws3_nl_3 (a b : nat) : PyStr.ws3 a b 10 = false.
Proof.
  unfold PyStr.ws3. cbn.
  destruct (a =? 225), (b =? 154), (a =? 226), (b =? 128), (b =? 129),
    (a =? 227); reflexivity.
Qed.

Lemma ws3_nl_2 (a c : nat) : PyStr.ws3 a 10 c = false.
Proof.
  unfold PyStr.ws3. cbn.
  destruct (a =? 225), (a =? 226), (a =? 227); reflexivity.
Qed.

Lemma ws3_nl_1 (b c : nat) : PyStr.ws3 10 b c = false.
Proof. reflexivity. Qed.

Lemma nl_byte : nat_of_ascii (ascii_of_nat 10) = 10.
Proof. reflexivity. Qed.

(** A text without whitespace in front keeps none when a newline and
    more text follow it. *)
Lemma drop_ws_before_newline (back : bool) (u r : string) :
  u <> EmptyString -> PyStr.drop_ws back u = u ->
  PyStr.drop_ws back (u ++ PyStr.nl ++ r) = u ++ PyStr.nl ++ r.
Proof.
  intros Hne H.
  assert (Hshort : forall n t x,
             String.length x = n + String.length t ->
             0 < n -> PyStr.drop_ws back t = x -> False).
  { intros n t x Hx Hn Hd. pose proof (drop_ws_length back t) as Hl.
    rewrite Hd in Hl. lia. }
  destruct u as [|c1 u1]; [congruence|]. clear Hne.
  unfold PyStr.nl, PyStr.chr. cbn [append].
  cbn [PyStr.drop_ws] in H. cbn [PyStr.drop_ws].
  destruct (PyStr.ws1 (nat_of_ascii c1));
    [exfalso; refine (Hshort 1 _ _ _ _ H); [reflexivity|lia]|].
  destruct u1 as [|c2 u2]; cbn [append].
  - rewrite nl_byte, ws2_nl_r, ws2_nl_l.
    destruct back; destruct r as [|c3 r3];
      rewrite ?ws3_nl_2; reflexivity.
  - destruct (if back
              then PyStr.ws2 (nat_of_ascii c2) (nat_of_ascii c1)
              else PyStr.ws2 (nat_of_ascii c1) (nat_of_ascii c2));
      [exfalso; refine (Hshort 2 _ _ _ _ H); [reflexivity|lia]|].
    destruct u2 as [|c3 u3]; cbn [append].
    + rewrite nl_byte, ws3_nl_3, ws3_nl_1. destruct back; reflexivity.
    + destruct (if back
                then PyStr.ws3 (nat_of_ascii c3) (nat_of_ascii c2)
                       (nat_of_ascii c1)
                else PyStr.ws3 (nat_of_ascii c1) (nat_of_ascii c2)
                       (nat_of_ascii c3));
        [exfalso; refine (Hshort 3 _ _ _ _ H); [reflexivity|lia]|].
      reflexivity.
Qed.

Lemma rev_nonempty (t : string) : t <> EmptyString -> PyStr.rev t <> EmptyString.
Proof.
  intros Ht H. apply Ht. rewrite <- (rev_rev t), H. reflexivity.
Qed.

Lemma trimmed_of_strip (t : string) :
  PyStr.truthy t = true -> PyStr.strip t = t -> trimmed t.
Proof.
  intros Ht Hs. destruct (strip_fixed t) as (Hl & Hr).
  rewrite Hs in Hl, Hr. split; [|split].
  - intros ->. discriminate.
  - exact Hl.
  - unfold PyStr.rstrip in Hr. rewrite <- Hr at 2. rewrite rev_rev.
    reflexivity.
Qed.

Lemma join_nonempty (t : string) (l : list string) :
  t <> EmptyString -> PyStr.join PyStr.nl (t :: l) <> EmptyString.
Proof.
  intros Ht. destruct t as [|c t']; [congruence|].
  destruct l; cbn; discriminate.
Qed.

Lemma join_front (t : string) (l : list string) :
  trimmed t ->
  PyStr.drop_ws false (PyStr.join PyStr.nl (t :: l) ++ PyStr.nl)
  = PyStr.join PyStr.nl (t :: l) ++ PyStr.nl.
Proof.
  intros (Hne & Hl & _). destruct l as [|t' l']; cbn [PyStr.join].
  - rewrite <- (append_empty PyStr.nl) at 1 2.
    apply drop_ws_before_newline; assumption.
  - rewrite !append_assoc. apply drop_ws_before_newline; assumption.
Qed.

Lemma join_back (t : string) (l : list string) :
  Forall trimmed (t :: l) ->
  PyStr.drop_ws true (PyStr.rev (PyStr.join PyStr.nl (t :: l)))
  = PyStr.rev (PyStr.join PyStr.nl (t :: l)).
Proof.
  revert t. induction l as [|t' l' IH]; intros t Hall; cbn [PyStr.join].
  - inversion Hall as [|? ? (_ & _ & Hr) _]. exact Hr.
  - inversion Hall as [|? ? _ Hrest]; subst.
    rewrite !rev_append.
    change (PyStr.rev PyStr.nl) with PyStr.nl. rewrite append_assoc.
    apply drop_ws_before_newline; [|apply IH, Hrest].
    apply rev_nonempty, join_nonempty.
    inversion Hrest as [|? ? (Hne & _) _]. exact Hne.
Qed.

Lemma strip_join (t : string) (l : list string) :
  Forall trimmed (t :: l) ->
  PyStr.strip (PyStr.join PyStr.nl (t :: l) ++ PyStr.nl)
  = PyStr.join PyStr.nl (t :: l).
Proof.
  intros Hall. unfold PyStr.strip, PyStr.lstrip.
  rewrite join_front by (inversion Hall; assumption).
  unfold PyStr.rstrip. rewrite rev_append.
  change (PyStr.rev PyStr.nl) with PyStr.nl.
  unfold PyStr.nl at 1, PyStr.chr. cbn [append PyStr.drop_ws].
  rewrite nl_byte. cbn [PyStr.ws1 Nat.leb andb orb].
  rewrite (join_back t l Hall). apply rev_rev.
Qed.

Lemma page_lines_join (texts : list string) :
  page_lines texts
  = match filter PyStr.truthy texts with
    | [] => EmptyString
    | l => PyStr.join PyStr.nl l ++ PyStr.nl
    end.
Proof.
  induction texts as [|t rest IH]; [reflexivity|].
  cbn [page_lines filter]. destruct (PyStr.truthy t); [|exact IH].
  rewrite IH. destruct (filter PyStr.truthy rest) as [|t' l'];
    cbn [PyStr.join].
  - reflexivity.
  - rewrite !append_assoc. reflexivity.
Qed.

Lemma strip_page_lines (texts : list string) :
  Forall (fun t => PyStr.strip t = t) texts ->
  PyStr.strip (page_lines texts)
  = PyStr.join PyStr.nl (filter PyStr.truthy texts).
Proof.
  intros Hall. rewrite page_lines_join.
  assert (Htrim : Forall trimmed (filter PyStr.truthy texts)).
  { apply Forall_forall. intros t Hin. apply filter_In in Hin.
    destruct Hin as (Hin & Ht). apply trimmed_of_strip; [exact Ht|].
    rewrite Forall_forall in Hall. apply Hall, Hin. }
  destruct (filter PyStr.truthy texts) as [|t l]; [reflexivity|].
  apply strip_join, Htrim.
Qed.

End Joined.

(** C8. Without [CV.pdf] the reference text is the empty string and the
    run goes on as soon as the prompt and the knowledge record are
    readable: the absence is no error.  With it, the texts of its pages,
    as [extract_text] gives them (no whitespace at either end), are
    concatenated in page order with one newline between two consecutive
    texts; a page without text adds nothing. *)
Theorem reference_text_joined (w : world) (s : session_state) :
  (cv_pdf w = CvAbsent ->
   load_cv w s = (Ok EmptyString, s, [PathExists "CV.pdf"])
   /\ forall key p k,
        OPENAI_API_KEY w = Ok key -> prompt_txt w = Ok p ->
        knowledge_json w = Ok k -> outcome w s = Ok tt)
  /\ (forall texts,
        cv_pdf w = CvPages texts ->
        Forall (fun t => PyStr.strip t = t) texts ->
        load_cv w s
        = (Ok (PyStr.join PyStr.nl (filter PyStr.truthy texts)), s,
           [PathExists "CV.pdf"; PdfOpen "CV.pdf"])
        /\ (Forall (fun t => PyStr.truthy t = true) texts ->
            load_cv w s
            = (Ok (PyStr.join PyStr.nl texts), s,
               [PathExists "CV.pdf"; PdfOpen "CV.pdf"]))).
Proof.
  split.
  - intros Hcv. split; [unfold load_cv; rewrite Hcv; reflexivity|].
    intros key p k Hkey Hp Hk.
    apply (ready_outcome w key p k EmptyString). repeat split; auto.
    unfold reference_text, load_cv. rewrite Hcv. reflexivity.
  - intros texts Hcv Htexts.
    assert (Hload : load_cv w s
                    = (Ok (PyStr.join PyStr.nl (filter PyStr.truthy texts)),
                       s, [PathExists "CV.pdf"; PdfOpen "CV.pdf"])).
    { unfold load_cv. rewrite Hcv. cbn [cv_pages].
      unfold bind, emit, ret. cbn [app].
      rewrite cv_pages_lines. cbn [append].
      rewrite (strip_page_lines texts Htexts). reflexivity. }
    split; [exact Hload|]. intros Hall. rewrite Hload.
    replace (filter PyStr.truthy texts) with texts; [reflexivity|].
    clear Hload Htexts Hcv. induction Hall as [|t rest Ht _ IH];
      [reflexivity|].
    cbn [filter]. rewrite Ht, <- IH. reflexivity.
Qed.

Lemma reference_text_joined_witness :
  load_cv Sample.three_pages fresh
  = (Ok ("Hola" ++ PyStr.nl ++ "Mundo"), fresh,
     [PathExists "CV.pdf"; PdfOpen "CV.pdf"]).
Proof.
  destruct (reference_text_joined Sample.three_pages fresh) as (_ & Hpages).
  destruct (Hpages ["Hola"; EmptyString; "Mundo"]) as (Hload & _).
  - reflexivity.
  - repeat constructor.
  - exact Hload.
Defined.

(** *** Plain text of the knowledge record in the system message *)

Lemma iterencode_list (level : nat) (x : json) (xs : list json) :
  Json.iterencode level (JList (x :: xs))
  = "[" ++ Json.newline_indent (S level) ++ each_item level (x :: xs)
    ++ Json.newline_indent level ++ "]".
Proof. reflexivity. Qed.

Lemma iterencode_dict (level : nat) (f : string * json)
    (fs : list (string * json)) :
  Json.iterencode level (JDict (f :: fs))
  = "{" ++ Json.newline_indent (S level) ++ each_field level (f :: fs)
    ++ Json.newline_indent level ++ "}".
Proof. reflexivity. Qed.

Lemma contains_refl (s : string) : contains s s.
Proof. exists EmptyString, EmptyString. cbn. rewrite append_empty. reflexivity. Qed.

Lemma contains_wrap (a c big small : string) :
  contains big small -> contains (a ++ big ++ c) small.
Proof.
  intros (pre & post & ->). exists (a ++ pre), (post ++ c).
  rewrite !append_assoc. reflexivity.
Qed.

Lemma contains_left (c big small : string) :
  contains big small -> contains (big ++ c) small.
Proof. intros H. apply (contains_wrap EmptyString c) in H. exact H. Qed.

Lemma contains_right (a big small : string) :
  contains big small -> contains (a ++ big) small.
Proof.
  intros H. apply (contains_wrap a EmptyString) in H.
  rewrite append_empty in H. exact H.
Qed.

Lemma each_item_contains (level : nat) (items : list json) (v : json) :
  In v items ->
  contains (each_item level items) (Json.iterencode (S level) v).
Proof.
  induction items as [|x l IH]; [intros []|].
  intros [->|Hin].
  - destruct l as [|y l']; cbn [each_item].
    + apply contains_refl.
    + apply contains_left, contains_refl.
  - destruct l as [|y l']; [destruct Hin|].
    change (each_item level (x :: y :: l'))
      with (Json.iterencode (S level) x ++ "," ++ Json.newline_indent (S level)
            ++ each_item level (y :: l')).
    do 3 apply contains_right. apply IH, Hin.
Qed.

Lemma each_field_contains (level : nat) (fields : list (string * json))
    (k : string) (v : json) :
  In (k, v) fields ->
  contains (each_field level fields)
    (Json.encode_basestring k ++ ": " ++ Json.iterencode (S level) v).
Proof.
  induction fields as [|[k0 x] l IH]; [intros []|].
  intros [Heq|Hin].
  - injection Heq as -> ->. destruct l as [|y l']; cbn [each_field].
    + apply contains_refl.
    + exists EmptyString,
        ("," ++ Json.newline_indent (S level) ++ each_field level (y :: l')).
      cbn [append]. rewrite !append_assoc. reflexivity.
  - destruct l as [|y l']; [destruct Hin|].
    change (each_field level ((k0, x) :: y :: l'))
      with (Json.encode_basestring k0 ++ ": " ++ Json.iterencode (S level) x
            ++ "," ++ Json.newline_indent (S level)
            ++ each_field level (y :: l')).
    do 5 apply contains_right. apply IH, Hin.
Qed.

Lemma occurs_contains (s : string) (k : json) :
  plain s = true -> occurs s k ->
  forall level,
    contains (Json.iterencode level k) (PyStr.dq ++ s ++ PyStr.dq).
Proof.
  intros Hs Hocc.
  assert (Hquoted : Json.encode_basestring s = PyStr.dq ++ s ++ PyStr.dq)
    by (unfold Json.encode_basestring; rewrite (escape_plain s Hs);
        reflexivity).
  induction Hocc as [|items v Hin _ IH|fields k v Hin _ IH|fields v Hin];
    intros level.
  - cbn [Json.iterencode]. rewrite Hquoted. apply contains_refl.
  - destruct items as [|x xs]; [destruct Hin|].
    rewrite iterencode_list. do 2 apply contains_right. apply contains_left.
    destruct (each_item_contains level (x :: xs) v Hin) as (a & b & ->).
    apply contains_wrap, IH.
  - destruct fields as [|f fs]; [destruct Hin|].
    rewrite iterencode_dict. do 2 apply contains_right. apply contains_left.
    destruct (each_field_contains level (f :: fs) k v Hin) as (a & b & ->).
    apply contains_wrap. do 2 apply contains_right. apply IH.
  - destruct fields as [|f fs]; [destruct Hin|].
    rewrite iterencode_dict. do 2 apply contains_right. apply contains_left.
    destruct (each_field_contains level (f :: fs) s v Hin) as (a & b & ->).
    apply contains_wrap. rewrite Hquoted. apply contains_left, contains_refl.
Qed.

(** X17. With [ensure_ascii=False] a string that is anywhere in the
    knowledge record (a value or a key, at any depth) and holds no
    control character, no double quote and no backslash is in the system
    message of every turn as it is, between two double quotes: accented
    and other non-ASCII text reaches the endpoint unescaped. *)
Theorem plain_text_verbatim (w : world) (key p : string) (k : json)
    (cv : string) (s : session_state) (text : string) :
  ready w key p k cv -> PyStr.truthy (text_input w) = true ->
  plain text = true -> occurs text k ->
  exists sys rest before after,
    posted (trace w s) = [sys :: rest]
    /\ role sys = "system"
    /\ content sys
       = JStr (before ++ PyStr.dq ++ text ++ PyStr.dq ++ after).
Proof.
  intros Hr Hu Hplain Hocc.
  destruct (occurs_contains text k Hplain Hocc 0) as (a & b & Hk).
  exists (system_message p k cv),
    (history_of s ++ [mkMessage "user" (JStr (text_input w))])%list.
  assert (Hc : contains (system_content p k cv)
                 (PyStr.dq ++ text ++ PyStr.dq)).
  { unfold system_content, Json.dumps. rewrite Hk.
    do 5 apply contains_right. apply contains_left.
    apply contains_wrap, contains_refl. }
  destruct Hc as (before & after & Hc). exists before, after.
  split; [|split; [reflexivity|]].
  - unfold trace. rewrite (script_turn w key p k cv s Hr Hu). unboot.
    apply turn_trace_spec.
  - cbn [system_message content]. rewrite Hc, !append_assoc. reflexivity.
Qed.

Lemma plain_text_verbatim_witness :
  exists sys rest before after,
    posted (trace More.accented fresh) = [sys :: rest]
    /\ role sys = "system"
    /\ content sys
       = JStr (before ++ PyStr.dq ++ "Ingeniería de datos" ++ PyStr.dq
               ++ after).
Proof.
  apply (plain_text_verbatim More.accented "sk-test" "Eres un asistente."
           More.accented_knowledge EmptyString fresh "Ingeniería de datos").
  - repeat split.
  - reflexivity.
  - reflexivity.
  - apply (occurs_value _ _ "perfil"
             (JDict [("ciudad", JStr "São Paulo");
                     ("áreas", JList [JStr "Analítica";
                                      JStr "Ingeniería de datos"])]));
      [left; reflexivity|].
    apply (occurs_value _ _ "áreas"
             (JList [JStr "Analítica"; JStr "Ingeniería de datos"]));
      [right; left; reflexivity|].
    apply (occurs_item _ _ (JStr "Ingeniería de datos"));
      [right; left; reflexivity|]. constructor.
Defined.
